(** * tw2.forms.calendars: the date/time converter and the pre-1900 formatter

  A shallow embedding of [src/tw2/forms/calendars.py]:
  [DateTimeConverter._to_python], [DateTimeConverter._from_python],
  [_illegal_s], [_findall] and [strftime_before1900].

  Python text is a [list ascii]; integers are [Z] and [//] is [Z.div]
  (both round towards minus infinity); offsets into a text are [nat].
  An exception is a value of [exn]; the methods of a datetime object
  ([strftime], [timetuple]) are parameters of the embedding and every
  call of the library is recorded in a trace. The module binds neither
  [time] nor [date]: a use of either name raises [NameError]. *)

From Stdlib Require Import ZArith Ascii String Bool Arith Lia.
From Stdlib Require Import List Sorted.
From Equations.Prop Require Import Equations Logic.
Import ListNotations.

(** Text literals are written as string literals. *)
Definition text := list ascii.
Coercion list_ascii_of_string : string >-> list.

Local Open Scope char_scope.
Local Open Scope string_scope.
Local Open Scope list_scope.

(** ** Python built-ins used by the module *)
Module Py.

(** [text.startswith(prefix)] *)
Fixpoint startswith (t prefix : text) {struct prefix} : bool :=
  match prefix, t with
  | [], _ => true
  | p :: ps, c :: cs => Ascii.eqb p c && startswith cs ps
  | _ :: _, [] => false
  end.

(** The scan behind [str.find]: first offset, counted from [pos], at which
    [substr] starts in [t]. *)
Fixpoint find_from (t substr : text) (pos : nat) : option nat :=
  if startswith t substr then Some pos
  else match t with
       | [] => None
       | _ :: rest => find_from rest substr (S pos)
       end.

(** [text.find(substr, start)]; [None] stands for Python's [-1]. *)
Definition find (t substr : text) (start : nat) : option nat :=
  if (start <=? length t)%nat then find_from (skipn start t) substr start
  else None.

(** One decimal digit. *)
Definition digit (d : Z) : ascii := ascii_of_nat (48 + Z.to_nat d).

(** Decimal digits of a non-negative integer, most significant first;
    [fuel] bounds the number of digits. *)
Fixpoint digits (fuel : nat) (n : Z) (acc : text) : text :=
  match fuel with
  | O => acc
  | S f =>
      let acc' := digit (n mod 10) :: acc in
      if (n / 10 =? 0)%Z then acc' else digits f (n / 10) acc'
  end.

(** [str(n)] for an integer. *)
Definition str (n : Z) : text :=
  if (n <? 0)%Z then "-"%char :: digits (S (Z.to_nat (Z.log2 (- n)))) (- n) []
  else digits (S (Z.to_nat (Z.log2 n))) n [].

(** Right-justify in a field of [width] characters, filling with [fill]:
    the padding of a ["%<width>d"] conversion. A text longer than the
    field is kept whole. *)
Definition rjust (width : nat) (fill : ascii) (t : text) : text :=
  repeat fill (width - length t) ++ t.

(** ["%4d" % (n,)] *)
Definition percent_4d (n : Z) : text := rjust 4 " "%char (str n).

(** ["%04d" % (n,)] for a non-negative [n], and ["%02d"]: the zero-padded
    conversions. *)
Definition percent_0d (width : nat) (n : Z) : text :=
  if (n <? 0)%Z then "-"%char :: rjust (width - 1) "0"%char (str (- n))
  else rjust width "0"%char (str n).

(** [s[:i]] and [s[i:]] for non-negative [i]. *)
Definition upto (i : nat) (s : text) : text := firstn i s.
Definition from (i : nat) (s : text) : text := skipn i s.

(** [c.lower()] for one character of a byte string: the letters A to Z. *)
Definition lower_char (c : ascii) : ascii :=
  let n := nat_of_ascii c in
  if ((65 <=? n) && (n <=? 90))%nat then ascii_of_nat (n + 32) else c.

(** [s.lower()] *)
Definition lower (s : text) : text := map lower_char s.

End Py.

(** ** The fragment of [re] used by [_illegal_s] *)
Module Re.

Inductive regex : Type :=
| Bol                         (* ^ *)
| Chr (c : ascii)             (* a literal character *)
| NotChr (c : ascii)          (* [^c] *)
| Cat (r1 r2 : regex)         (* r1 r2 *)
| Alt (r1 r2 : regex)         (* r1|r2 *)
| Star (r : regex).           (* r* *)

Section Iterate.
Variable step : text -> list text.

(** Greedy iteration of [step]; an iteration that consumes nothing is
    not repeated. *)
Fixpoint star_iter (fuel : nat) (s : text) : list text :=
  match fuel with
  | O => [s]
  | S f =>
      flat_map (fun s' => if (length s' <? length s)%nat then star_iter f s'
                          else [])
               (step s) ++ [s]
  end.
End Iterate.

(** Backtracking matcher: all the remainders left by a match of [r] at the
    front of [s], in the order a backtracking engine tries them. [n] is the
    length of the whole subject, so that [length s = n] holds exactly at
    the start of the subject. *)
Fixpoint rx_match (n : nat) (r : regex) (s : text) : list text :=
  match r with
  | Bol => if (length s =? n)%nat then [s] else []
  | Chr c =>
      match s with
      | c' :: rest => if Ascii.eqb c c' then [rest] else []
      | [] => []
      end
  | NotChr c =>
      match s with
      | c' :: rest => if Ascii.eqb c c' then [] else [rest]
      | [] => []
      end
  | Cat r1 r2 => flat_map (rx_match n r2) (rx_match n r1 s)
  | Alt r1 r2 => rx_match n r1 s ++ rx_match n r2 s
  | Star r' => star_iter (rx_match n r') (length s) s
  end.

(** All the suffixes of a text, longest first. *)
Fixpoint tails (s : text) : list text :=
  s :: match s with
       | [] => []
       | _ :: rest => tails rest
       end.

(** [pattern.search(s)], as a truth value. *)
Definition search (r : regex) (s : text) : bool :=
  existsb (fun suffix => match rx_match (length s) r suffix with
                         | [] => false
                         | _ :: _ => true
                         end)
          (tails s).

End Re.

(** ** The module [tw2.forms.calendars] *)
Module Calendars.

(** *** Values *)

(** A [tzinfo] object is opaque to the module: it is only stored and handed
    back. *)
Definition tz_object := text.

(** A [datetime.datetime] object. *)
Record datetime : Type := Datetime {
  year : Z;
  month : Z;
  day : Z;
  hour : Z;
  minute : Z;
  second : Z;
  dt_tzinfo : option tz_object
}.

(** The Python values that reach the converter. *)
Inductive pyval : Type :=
| PyNone
| PyStr (s : text)
| PyInt (n : Z)
| PyDate (y m d : Z)            (* a [datetime.date] that is no [datetime] *)
| PyDatetime (dt : datetime).

(** Truth value of an object, as tested by [if value] and [not value]. *)
Definition truth (v : pyval) : bool :=
  match v with
  | PyNone => false
  | PyStr s => match s with [] => false | _ :: _ => true end
  | PyInt n => negb (n =? 0)%Z
  | PyDate _ _ _ => true
  | PyDatetime _ => true
  end.

(** [isinstance(value, (date, datetime))] *)
Definition isinstance_date_or_datetime (v : pyval) : bool :=
  match v with
  | PyDate _ _ _ | PyDatetime _ => true
  | _ => false
  end.

(** [isinstance(value, datetime)] *)
Definition isinstance_datetime (v : pyval) : bool :=
  match v with
  | PyDatetime _ => true
  | _ => false
  end.

(** A [time.struct_time]. *)
Record struct_time : Type := StructTime {
  tm_year : Z;
  tm_mon : Z;
  tm_mday : Z;
  tm_hour : Z;
  tm_min : Z;
  tm_sec : Z;
  tm_wday : Z;
  tm_yday : Z;
  tm_isdst : Z
}.

(** A [struct_time] read as the 9-tuple it is. *)
Definition as_tuple (t : struct_time) : list Z :=
  [tm_year t; tm_mon t; tm_mday t; tm_hour t; tm_min t; tm_sec t;
   tm_wday t; tm_yday t; tm_isdst t].

(** *** Exceptions and the trace of library calls *)

Inductive exn : Type :=
| NameError (name : text)
| TypeError (msg : text)
| ValueError (msg : text)
| KeyError (key : text)
| Invalid (msg : text) (value state : pyval).   (* formencode.api.Invalid *)

Inductive outcome (A : Type) : Type :=
| Return (a : A)
| Raise (e : exn).
Arguments Return {A} a.
Arguments Raise {A} e.

(** A call into the library: [time.strftime(fmt, t)],
    [time.strptime(value, fmt)], [dt.strftime(fmt)] and [dt.timetuple()]. *)
Inductive call : Type :=
| Call_time_strftime (fmt : text) (t : list Z)
| Call_time_strptime (value : pyval) (fmt : text)
| Call_datetime_strftime (dt : datetime) (fmt : text)
| Call_datetime_timetuple (dt : datetime).

(** A computation: the library calls it made, in order, and how it ended. *)
Definition M (A : Type) : Type := (list call * outcome A)%type.

Definition ret {A} (a : A) : M A := ([], Return a).

Definition raise {A} (e : exn) : M A := ([], Raise e).

Definition bind {A B} (m : M A) (f : A -> M B) : M B :=
  match m with
  | (tr, Return a) => let (tr', r) := f a in (tr ++ tr', r)
  | (tr, Raise e) => (tr, Raise e)
  end.

(** [try: m except ValueError: handler] *)
Definition except_ValueError {A} (m : M A) (handler : M A) : M A :=
  match m with
  | (tr, Raise (ValueError _)) => let (tr', r) := handler in (tr ++ tr', r)
  | _ => m
  end.

Declare Scope py_scope.
Delimit Scope py_scope with py.
Notation "x <- m ;; k" := (bind m (fun x => k))
  (at level 61, m at next level, right associativity) : py_scope.
Local Open Scope py_scope.

Definition trace {A} (m : M A) : list call := fst m.
Definition result {A} (m : M A) : outcome A := snd m.

(** *** The library *)

(** What the module takes from the platform: the methods [strftime(fmt)]
    and [timetuple()] of a datetime object. *)
Record platform : Type := Platform {
  c_datetime_strftime : datetime -> text -> outcome text;
  c_datetime_timetuple : datetime -> struct_time
}.

(** The module [time] of the standard library, as lines 68, 125 and 128
    would use it: [strftime(fmt, tuple)] and [strptime(value, fmt)]. *)
Record time_module : Type := TimeModule {
  time_strftime_of : text -> list Z -> outcome text;
  time_strptime_of : pyval -> text -> outcome struct_time
}.

(** *** The global names [time] and [date]

    The module binds its global names at lines 28-40: [re], the class
    [datetime], [logging], [twc], [FormField], [formencode], [ForEach],
    [Invalid], [NoDefault], [Schema], and the validator classes that the
    two star imports of formencode bring. Neither [time] nor [date] is
    among them, and none of its functions binds them: looking either name
    up raises [NameError]. *)
Definition global_time : M time_module := raise (NameError "time").

Definition global_date : M unit := raise (NameError "date").

(** The calendar of [datetime]. *)
Definition is_leap (y : Z) : bool :=
  ((y mod 4 =? 0) && (negb (y mod 100 =? 0) || (y mod 400 =? 0)))%Z.

Definition days_in_month (y m : Z) : Z :=
  if (m =? 2)%Z then (if is_leap y then 29 else 28)
  else if ((m =? 4) || (m =? 6) || (m =? 9) || (m =? 11))%Z then 30
  else 31.

(** The complaint of the constructor, if any: the fields are checked in
    this order. *)
Definition datetime_range_error (y mo d h mi s : Z) : option text :=
  if negb ((1 <=? y) && (y <=? 9999))%Z then
    Some ("year is out of range" : text)
  else if negb ((1 <=? mo) && (mo <=? 12))%Z then
    Some ("month must be in 1..12" : text)
  else if negb ((1 <=? d) && (d <=? days_in_month y mo))%Z then
    Some ("day is out of range for month" : text)
  else if negb ((0 <=? h) && (h <=? 23))%Z then
    Some ("hour must be in 0..23" : text)
  else if negb ((0 <=? mi) && (mi <=? 59))%Z then
    Some ("minute must be in 0..59" : text)
  else if negb ((0 <=? s) && (s <=? 59))%Z then
    Some ("second must be in 0..59" : text)
  else None.

(** [datetime(year=..., month=..., ...)]: the constructor checks the range
    of every field. *)
Definition datetime_new (y mo d h mi s : Z) (tz : option tz_object)
  : M datetime :=
  match datetime_range_error y mo d h mi s with
  | None => ret (Datetime y mo d h mi s tz)
  | Some msg => raise (ValueError msg)
  end.

(** *** [DateTimeConverter] *)

(** The attributes of a converter that the module reads: [format] and
    [tzinfo], set by [__init__], and [not_empty], which [__init__] passes
    on to the base class. *)
Record DateTimeConverter : Type := Converter {
  format : text;
  tzinfo : option tz_object;
  not_empty : bool
}.

(** The default of the [format] argument of [__init__]. *)
Definition default_format : text := "%Y/%m/%d %H:%M".

(** The class attribute [messages]. *)
Definition messages : list (text * text) :=
  [ ("badFormat" : text, "Invalid datetime format." : text);
    ("empty" : text, "Please Enter a Date." : text) ].

Definition text_eqb (a b : text) : bool :=
  if list_eq_dec Ascii.ascii_dec a b then true else false.

Fixpoint lookup (key : text) (d : list (text * text)) : option text :=
  match d with
  | [] => None
  | (k, v) :: rest => if text_eqb k key then Some v else lookup key rest
  end.

(** [self.message(name, state)]: the text stored under [name]. *)
Definition message (name : text) (state : pyval) : M text :=
  match lookup name messages with
  | Some m => ret m
  | None => raise (KeyError name)
  end.

(** *** [_illegal_s] and [_findall] *)

(** [re.compile(r"((^|[^%])(%%)*%s)")] *)
Definition _illegal_s : Re.regex :=
  Re.Cat (Re.Alt Re.Bol (Re.NotChr "%"))
         (Re.Cat (Re.Star (Re.Cat (Re.Chr "%") (Re.Chr "%")))
                 (Re.Cat (Re.Chr "%") (Re.Chr "s"))).

(** [str.find] reports an offset at or after [start] and inside the text:
    what makes the loop of [_findall] advance. *)
Lemma find_from_bounds (t substr : text) (pos j : nat) :
  Py.find_from t substr pos = Some j -> (pos <= j <= pos + length t)%nat.
Proof.
  revert pos; induction t as [|c t IH]; intros pos.
  - cbn [Py.find_from]. destruct (Py.startswith [] substr); [|discriminate].
    intros [= <-]; simpl; lia.
  - cbn [Py.find_from length]. destruct (Py.startswith (c :: t) substr).
    + intros [= <-]; lia.
    + intros H; apply IH in H; lia.
Qed.

Lemma find_bounds (t substr : text) (start j : nat) :
  Py.find t substr start = Some j -> (start <= j <= length t)%nat.
Proof.
  unfold Py.find. destruct (Nat.leb_spec start (length t)) as [Hle|Hgt];
    [|discriminate].
  intros Hf; apply find_from_bounds in Hf. rewrite length_skipn in Hf. lia.
Qed.

(** The [while 1] loop of [_findall]: [sites] and [i] are its variables. *)
Equations? _findall_loop (t substr : text) (sites : list nat) (i : nat)
  : list nat by wf (S (length t) - i)%nat lt :=
_findall_loop t substr sites i with inspect (Py.find t substr i) := {
  | exist _ None _ => sites
  | exist _ (Some j) Hj => _findall_loop t substr (sites ++ [j]) (j + 1) }.
Proof. apply find_bounds in Hj. rewrite Nat.add_1_r. destruct i; lia. Qed.

Definition _findall (t substr : text) : list nat :=
  _findall_loop t substr [] 0.

(** *** [strftime_before1900] *)

Section WithPlatform.
Variable P : platform.

(** The library calls, each leaving its mark in the trace. [time.strftime]
    and [time.strptime] are reached through the name [time]. *)
Definition time_strftime (fmt : text) (t : list Z) : M text :=
  time <- global_time ;;
  ([Call_time_strftime fmt t], time_strftime_of time fmt t).

Definition time_strptime (value : pyval) (fmt : text) : M struct_time :=
  time <- global_time ;;
  ([Call_time_strptime value fmt], time_strptime_of time value fmt).

Definition datetime_strftime (dt : datetime) (fmt : text) : M text :=
  ([Call_datetime_strftime dt fmt], c_datetime_strftime P dt fmt).

Definition datetime_timetuple (dt : datetime) : M struct_time :=
  ([Call_datetime_timetuple dt], Return (c_datetime_timetuple P dt)).

(** The year that stands in for [y]: lines 115-123. *)
Definition working_year (y : Z) : Z :=
  let year := y in
  let delta := (2000 - year)%Z in
  let off := (6 * (delta / 100 + delta / 400))%Z in
  let year := (year + off)%Z in
  let year := (year + ((2000 - year) / 28) * 28)%Z in
  year.

(** The loop [for site in sites1: if site in sites2: sites.append(site)]. *)
Definition common_sites (sites1 sites2 : list nat) : list nat :=
  fold_left (fun sites site =>
               if existsb (Nat.eqb site) sites2 then sites ++ [site]
               else sites)
            sites1 [].

(** The assignment [s = s[:site] + syear + s[site+4:]] and the loop
    [for site in sites] around it. *)
Definition splice (syear : text) (s : text) (site : nat) : text :=
  Py.upto site s ++ syear ++ Py.from (site + 4) s.

Definition splice_all (syear : text) (sites : list nat) (s1 : text) : text :=
  fold_left (splice syear) sites s1.

(** [strftime_before1900(dt, fmt)], lines 110-140. The [import datetime]
    of line 109 binds a local name that the body does not use; the name
    [time] of lines 125 and 128 is looked up before the arguments of the
    call are evaluated, and after [dt.timetuple()] of line 124. *)
Definition strftime_before1900 (dt : datetime) (fmt : text) : M text :=
  if Re.search _illegal_s fmt then
    raise (TypeError "This strftime implementation does not handle %s")
  else if (year dt >? 1900)%Z then
    datetime_strftime dt fmt
  else
    let year := working_year (year dt) in
    timetuple <- datetime_timetuple dt ;;
    let timetuple := as_tuple timetuple in
    s1 <- time_strftime fmt (year :: skipn 1 timetuple) ;;
    let sites1 := _findall s1 (Py.str year) in
    s2 <- time_strftime fmt ((year + 28)%Z :: skipn 1 timetuple) ;;
    let sites2 := _findall s2 (Py.str (year + 28)) in
    let sites := common_sites sites1 sites2 in
    let s := s1 in
    let syear := Py.percent_4d (Calendars.year dt) in
    ret (splice_all syear sites s).

(** *** The methods of [DateTimeConverter] *)

(** [isinstance(value, (date, datetime))]: the tuple of classes is built
    first, [date] before [datetime]. *)
Definition isinstance_of_date_datetime (value : pyval) : M bool :=
  _ <- global_date ;;
  ret (isinstance_date_or_datetime value).

Definition _to_python (self : DateTimeConverter) (value state : pyval)
  : M pyval :=
  (* [value and isinstance(...)]: the right side is evaluated for a true
     value only *)
  test <- (if truth value then isinstance_of_date_datetime value
           else ret false) ;;
  if test then ret value
  else
    tpl <- except_ValueError
             (time_strptime value (format self))
             (msg <- message "badFormat" state ;;
              raise (Invalid msg value state)) ;;
    dt <- datetime_new (tm_year tpl) (tm_mon tpl) (tm_mday tpl)
                       (tm_hour tpl) (tm_min tpl) (tm_sec tpl)
                       (tzinfo self) ;;
    ret (PyDatetime dt).

Definition _from_python (self : DateTimeConverter) (value state : pyval)
  : M pyval :=
  if negb (truth value) then ret PyNone
  else
    match value with
    | PyDatetime dt =>
        if (year dt <=? 1900)%Z then
          s <- strftime_before1900 dt (format self) ;; ret (PyStr s)
        else
          s <- datetime_strftime dt (format self) ;; ret (PyStr s)
    | _ => ret value
    end.

End WithPlatform.

(** *** [CalendarDatePicker] *)
Module CalendarDatePicker.

(** [twc.JSLink(modname=..., filename=...)]: the link as declared. *)
Record JSLink : Type := Link {
  modname : text;
  filename : text
}.

(** [get_calendar_lang_file_link(self, lang)] *)
Definition get_calendar_lang_file_link (lang : text) : JSLink :=
  let fname := "static/calendar/lang/calendar-" ++ Py.lower lang ++ ".js" in
  Link "tw2.forms" fname.

(** The value of the class attribute [default]: the function
    [lambda: datetime.now()] that [post_define] installs, or another
    value, [None] among them. *)
Inductive default_value : Type :=
| DefaultNow
| DefaultGiven (v : pyval).

(** [cls.default is None] *)
Definition is_None (d : default_value) : bool :=
  match d with
  | DefaultGiven PyNone => true
  | _ => false
  end.

(** The value of the class attribute [validator]: [None], a
    [DateTimeConverter], or another validator given by the user. *)
Inductive validator_value : Type :=
| NoValidator
| ConverterValidator (c : DateTimeConverter)
| OtherValidator (name : text).

(** The class attributes that [post_define] reads and writes, as attribute
    lookup on [cls] finds them. *)
Record attributes : Type := Attributes {
  default : default_value;
  not_empty : bool;
  validator : validator_value;
  date_format : text;
  tzinfo : option tz_object
}.

(** [post_define(cls)]: the attributes of [cls] after the call. *)
Definition post_define (cls : attributes) : attributes :=
  let default' :=
    if is_None (default cls) && not_empty cls then DefaultNow
    else default cls in
  let validator' :=
    match validator cls with
    | NoValidator =>
        ConverterValidator
          (Converter (date_format cls) (tzinfo cls) (not_empty cls))
    | v => v
    end in
  Attributes default' (not_empty cls) validator' (date_format cls) (tzinfo cls).

End CalendarDatePicker.

End Calendars.

(** ** A reference platform

    The theorems below hold for every platform. This instance follows
    the datetime objects of CPython 2 on glibc for the numeric directives,
    and serves to run the embedding on concrete dates. *)
Module Ref.
Import Calendars.
Local Open Scope Z_scope.

(** Proleptic Gregorian day numbers, as [datetime] computes them. *)
Definition days_before_year (y : Z) : Z :=
  let y := y - 1 in y * 365 + y / 4 - y / 100 + y / 400.

Definition days_before_month (y m : Z) : Z :=
  nth (Z.to_nat m) [0; 0; 31; 59; 90; 120; 151; 181; 212; 243; 273; 304; 334] 0
  + (if (m >? 2) && is_leap y then 1 else 0).

Definition toordinal (y m d : Z) : Z :=
  days_before_year y + days_before_month y m + d.

Definition weekday (y m d : Z) : Z := (toordinal y m d + 6) mod 7.

(** [dt.timetuple()] *)
Definition timetuple (dt : datetime) : struct_time :=
  StructTime (year dt) (month dt) (day dt) (hour dt) (minute dt) (second dt)
             (weekday (year dt) (month dt) (day dt))
             (days_before_month (year dt) (month dt) + day dt)
             (-1).

Definition field (i : nat) (t : list Z) : Z := nth i t 0.

(** Seconds since the epoch of a tuple, read as UTC. *)
Definition epoch_seconds (t : list Z) : Z :=
  (toordinal (field 0 t) (field 1 t) (field 2 t) - 719163) * 86400
  + field 3 t * 3600 + field 4 t * 60 + field 5 t.

(** The text of one directive. *)
Definition directive (d : ascii) (t : list Z) : text :=
  if Ascii.eqb d "Y" then Py.str (field 0 t)
  else if Ascii.eqb d "m" then Py.percent_0d 2 (field 1 t)
  else if Ascii.eqb d "d" then Py.percent_0d 2 (field 2 t)
  else if Ascii.eqb d "H" then Py.percent_0d 2 (field 3 t)
  else if Ascii.eqb d "M" then Py.percent_0d 2 (field 4 t)
  else if Ascii.eqb d "S" then Py.percent_0d 2 (field 5 t)
  else if Ascii.eqb d "y" then Py.percent_0d 2 (field 0 t mod 100)
  else if Ascii.eqb d "j" then Py.percent_0d 3 (field 7 t)
  else if Ascii.eqb d "s" then Py.str (epoch_seconds t)
  else if Ascii.eqb d "%" then ["%"%char]
  else ["%"%char; d].

Fixpoint expand (fmt : text) (t : list Z) : text :=
  match fmt with
  | [] => []
  | c :: rest =>
      if Ascii.eqb c "%" then
        match rest with
        | [] => ["%"%char]
        | d :: rest' => directive d t ++ expand rest' t
        end
      else c :: expand rest t
  end.

(** [time.strftime(fmt, t)]: CPython 2 refuses years before 1900. *)
Definition strftime (fmt : text) (t : list Z) : outcome text :=
  if negb (length t =? 9)%nat then
    Raise (TypeError "argument must be 9-item sequence")
  else if field 0 t <? 1900 then Raise (ValueError "year >= 1900 required")
  else Return (expand fmt t).

(** [dt.strftime(fmt)] *)
Definition datetime_strftime (dt : datetime) (fmt : text) : outcome text :=
  if year dt <? 1900 then
    Raise (ValueError "the datetime strftime() methods require year >= 1900")
  else strftime fmt (as_tuple (timetuple dt)).

Definition cpython : platform := Platform datetime_strftime timetuple.

End Ref.


(** ** The vocabulary of the statements *)

Import Calendars.
Local Open Scope py_scope.

(** The offsets at which the true year is spliced in. *)
Definition safe_sites (y : Z) (s1 s2 : text) : list nat :=
  common_sites (_findall s1 (Py.str y)) (_findall s2 (Py.str (y + 28))).

(** [substr] occurs in [t] at offset [j]. *)
Definition occurs_at (t substr : text) (j : nat) : Prop :=
  exists pre post, t = pre ++ substr ++ post /\ length pre = j.

(** The same, as a test. *)
Definition occurs_atb (t substr : text) (j : nat) : bool :=
  (j <=? length t)%nat && Py.startswith (skipn j t) substr.

(** Written from the specification: the pattern holds an unescaped [%s].
    Reading from the left, a [%] takes the next character with it: [%%] is
    an escaped percent sign, [%s] the directive that is refused, and any
    other pair a directive of its own. *)
Fixpoint has_unescaped_s (fmt : text) : bool :=
  match fmt with
  | [] => false
  | c :: rest =>
      if Ascii.eqb "%" c then
        match rest with
        | [] => false
        | d :: rest' => if Ascii.eqb "s" d then true else has_unescaped_s rest'
        end
      else has_unescaped_s rest
  end.

(** The text starts with pairs [%%] followed by [%s]. *)
Fixpoint pairs_then_s (s : text) : bool :=
  match s with
  | c :: d :: rest =>
      Ascii.eqb "%" c
      && (Ascii.eqb "s" d || (Ascii.eqb "%" d && pairs_then_s rest))
  | _ => false
  end.

(** Some character other than [%] is followed by pairs [%%] and [%s]. *)
Definition after_other (suffix : text) : bool :=
  match suffix with
  | c :: r => negb (Ascii.eqb "%" c) && pairs_then_s r
  | [] => false
  end.

Definition nonempty {A} (l : list A) : bool :=
  match l with [] => false | _ :: _ => true end.

(** The two-character pieces of [_illegal_s]. *)
Definition percent_percent : Re.regex :=
  Re.Cat (Re.Chr "%") (Re.Chr "%").
Definition percent_s : Re.regex :=
  Re.Cat (Re.Chr "%") (Re.Chr "s").

(** The words of the claim: some [%s] of the pattern comes after an even
    run of [%], the run starting the pattern or following another
    character. *)
Definition unescaped_percent_s (fmt : text) : Prop :=
  exists pre k post,
    fmt = pre ++ repeat "%"%char (2 * k) ++ "%s" ++ post
    /\ (pre = [] \/ exists pre' c, pre = pre' ++ [c] /\ c <> "%"%char).

(** The text of a formatter turned into the value [_from_python] returns. *)
Definition as_value (m : M text) : M pyval := s <- m ;; ret (PyStr s).

(** The number a decimal text stands for. *)
Definition digit_value (c : ascii) : Z := (Z.of_nat (nat_of_ascii c) - 48)%Z.

Definition decimal_value (t : text) : Z :=
  fold_left (fun v c => 10 * v + digit_value c)%Z t 0%Z.

(** The text [u] moved by [d] characters meets itself: the last
    [length u - d] characters of [u] are its first ones. *)
Definition overlaps_itself (u : text) (d : nat) : bool :=
  text_eqb (skipn d u) (firstn (length u - d) u).

(** A call of the module [time]. *)
Definition is_time_call (c : call) : bool :=
  match c with
  | Call_time_strftime _ _ | Call_time_strptime _ _ => true
  | _ => false
  end.

(** Empty input, in the words of the specification: the empty text or a
    missing value. *)
Definition is_empty (value : pyval) : bool :=
  match value with
  | PyNone => true
  | PyStr [] => true
  | _ => false
  end.

(** Modelled from the spec: the method [to_python] that a
    [DateTimeConverter] inherits from the validator base class of
    formencode, which is not under [src/]; the form layer and
    [validate_python] (line 60) reach [_to_python] through it, and
    [__init__] (line 55) hands it [not_empty]. Section 4.1 of the
    specification: "if text is empty and allowEmpty is false, fails with
    Empty"; for any other input the specification goes on with the steps
    of [_to_python], and it says nothing more of empty text where
    allowEmpty is true. *)
Definition to_python (self : DateTimeConverter) (value state : pyval)
  : M pyval :=
  if is_empty value && not_empty self then
    msg <- message "empty" state ;;
    raise (Invalid msg value state)
  else _to_python self value state.

(** Dates and converters for the examples. *)
Definition dt_1850 : datetime := Datetime 1850 7 4 0 0 0 None.
Definition dt_1900 : datetime := Datetime 1900 1 1 0 0 0 None.
Definition dt_1901 : datetime := Datetime 1901 1 1 0 0 0 None.
Definition dt_2000 : datetime := Datetime 2000 1 1 0 0 0 None.
Definition converter : DateTimeConverter := Converter default_format None true.

(** The class attributes of [CalendarDatePicker] and of
    [CalendarDateTimePicker] as the class bodies declare them. *)
Definition CalendarDatePicker_declared : CalendarDatePicker.attributes :=
  CalendarDatePicker.Attributes (CalendarDatePicker.DefaultGiven PyNone) true
    CalendarDatePicker.NoValidator "%m/%d/%Y" None.

Definition CalendarDateTimePicker_declared : CalendarDatePicker.attributes :=
  CalendarDatePicker.Attributes (CalendarDatePicker.DefaultGiven PyNone) true
    CalendarDatePicker.NoValidator "%Y/%m/%d %H:%M" None.

(** The attributes of a class with the body of [CalendarDateTimePicker]
    that finds, by inheritance, the validator of a [CalendarDatePicker]
    on which [post_define] has run. *)
Definition CalendarDateTimePicker_inheriting : CalendarDatePicker.attributes :=
  CalendarDatePicker.Attributes (CalendarDatePicker.DefaultGiven PyNone) true
    (CalendarDatePicker.validator
       (CalendarDatePicker.post_define CalendarDatePicker_declared))
    (CalendarDatePicker.date_format CalendarDateTimePicker_declared) None.

(** * Properties *)

(** ** Running the embedding *)

Example run_1850 :
  strftime_before1900 Ref.cpython dt_1850 "%Y-%m-%d"
  = ([Call_datetime_timetuple dt_1850], Raise (NameError "time")).
Proof. reflexivity. Qed.

Example run_2000 :
  strftime_before1900 Ref.cpython dt_2000 "%Y-%m-%d"
  = ([Call_datetime_strftime dt_2000 "%Y-%m-%d"],
     Return ("2000-01-01" : text)).
Proof. vm_compute. reflexivity. Qed.

Example run_findall_overlap : _findall "aaaa" "aa" = [0; 1; 2]%nat.
Proof. reflexivity. Qed.

Example run_search :
  Re.search _illegal_s "%d %s" = true /\ Re.search _illegal_s "%%s" = false
  /\ Re.search _illegal_s "%%%s" = true /\ Re.search _illegal_s "a%%%%s" = false.
Proof. repeat split. Qed.

(** ** The working year *)

Section WorkingYear.
Local Open Scope Z_scope.

(** The second shift leaves the remainder of [2000 - year] modulo 28. *)
Lemma working_year_window (y : Z) :
  1972 < working_year y <= 2000.
Proof.
  unfold working_year.
  generalize (y + 6 * ((2000 - y) / 100 + (2000 - y) / 400)); intros y1.
  pose proof (Z.mod_pos_bound (2000 - y1) 28 eq_refl) as Hm.
  rewrite Z.mod_eq in Hm by discriminate. lia.
Qed.

End WorkingYear.

(** ** The shape of a run of [strftime_before1900] *)

Section Runs.
Variable P : platform.

Lemma run_illegal (dt : datetime) (fmt : text) :
  Re.search _illegal_s fmt = true ->
  strftime_before1900 P dt fmt =
    ([], Raise (TypeError "This strftime implementation does not handle %s")).
Proof. intros H. unfold strftime_before1900. rewrite H. reflexivity. Qed.

Lemma run_direct (dt : datetime) (fmt : text) :
  Re.search _illegal_s fmt = false -> (year dt > 1900)%Z ->
  strftime_before1900 P dt fmt =
    ([Call_datetime_strftime dt fmt], c_datetime_strftime P dt fmt).
Proof.
  intros H Hy. unfold strftime_before1900. rewrite H.
  destruct (Z.gtb_spec (year dt) 1900); [reflexivity | lia].
Qed.

(** With a year up to 1900 the run stops at the name [time] of line 125,
    after the call of [timetuple()] of line 124. *)
Lemma run_legacy (dt : datetime) (fmt : text) :
  Re.search _illegal_s fmt = false -> (year dt <= 1900)%Z ->
  strftime_before1900 P dt fmt =
    ([Call_datetime_timetuple dt], Raise (NameError "time")).
Proof.
  intros H Hy. unfold strftime_before1900. rewrite H.
  destruct (Z.gtb_spec (year dt) 1900); [lia | reflexivity].
Qed.

(** What a run with a year up to 1900 leaves in the trace. *)
Lemma legacy_trace (dt : datetime) (fmt : text) :
  (year dt <= 1900)%Z ->
  trace (strftime_before1900 P dt fmt) =
    if Re.search _illegal_s fmt then [] else [Call_datetime_timetuple dt].
Proof.
  intros Hy. destruct (Re.search _illegal_s fmt) eqn:Hs.
  - rewrite run_illegal by assumption. reflexivity.
  - rewrite run_legacy by assumption. reflexivity.
Qed.

Lemma legacy_result (dt : datetime) (fmt : text) :
  (year dt <= 1900)%Z ->
  result (strftime_before1900 P dt fmt) =
    Raise (if Re.search _illegal_s fmt
           then TypeError "This strftime implementation does not handle %s"
           else NameError "time").
Proof.
  intros Hy. destruct (Re.search _illegal_s fmt) eqn:Hs.
  - rewrite run_illegal by assumption. reflexivity.
  - rewrite run_legacy by assumption. reflexivity.
Qed.

End Runs.

(** ** Claims on the working year *)

Section WorkingYearClaims.
Local Open Scope Z_scope.
Variable P : platform.

(** C2, on the code as it is: for a year up to 1900 and a pattern that
    passes the [%s] check, the run goes through lines 115-123, calls
    [timetuple()] and stops with [NameError] at the name [time] of line
    125: no formatting pass is made, and no year is handed to
    [time.strftime]. *)
Theorem C2_no_formatting_pass (dt : datetime) (fmt : text) :
  year dt <= 1900 ->
  Re.search _illegal_s fmt = false ->
  strftime_before1900 P dt fmt
  = ([Call_datetime_timetuple dt], Raise (NameError "time"))
  /\ forall f t, ~ In (Call_time_strftime f t)
                      (trace (strftime_before1900 P dt fmt)).
Proof.
  intros Hy Hs. rewrite run_legacy by assumption.
  split; [reflexivity|]. intros f t [H|[]]. discriminate H.
Qed.

(** C10: for a year up to 1900, negative years included, the working year
    lies in (1972, 2000] and the year of the second pass in (2000, 2028];
    a run makes no call but [timetuple()] and calls of [time.strftime] that
    carry one of these two years, both after 1900. *)
Theorem C10_working_year_window (dt : datetime) (fmt : text) :
  year dt <= 1900 ->
  let w := working_year (year dt) in
  1972 < w <= 2000
  /\ 2000 < w + 28 <= 2028
  /\ Forall (fun c => c = Call_datetime_timetuple dt
                      \/ exists y rest,
                          c = Call_time_strftime fmt (y :: rest)
                          /\ (y = w \/ y = w + 28) /\ 1900 < y)
            (trace (strftime_before1900 P dt fmt)).
Proof.
  intros Hy w. pose proof (working_year_window (year dt)) as Hw. fold w in Hw.
  split; [exact Hw|]. split; [lia|].
  rewrite (legacy_trace P dt fmt Hy).
  destruct (Re.search _illegal_s fmt); repeat constructor.
Qed.

End WorkingYearClaims.

(** C1, on the code as it is: the 4th of July 1850 under ["%Y-%m-%d"]
    passes the [%s] check and the year test, and the run stops with
    [NameError] at the name [time] of line 125: no text is returned. *)
Theorem C1_format_1850_raises (P : platform) :
  strftime_before1900 P dt_1850 "%Y-%m-%d"
  = ([Call_datetime_timetuple dt_1850], Raise (NameError "time")).
Proof. reflexivity. Qed.

Lemma C2_no_formatting_pass_witness :
  strftime_before1900 Ref.cpython dt_1900 "%Y/%m/%d %H:%M"
  = ([Call_datetime_timetuple dt_1900], Raise (NameError "time")).
Proof.
  apply (C2_no_formatting_pass Ref.cpython dt_1900 "%Y/%m/%d %H:%M");
    [simpl; lia | reflexivity].
Defined.

Lemma C10_working_year_window_witness :
  (year (Datetime (-44) 3 15 0 0 0 None) <= 1900)%Z
  /\ (1972 < working_year (-44) <= 2000)%Z.
Proof.
  assert (Hy : (year (Datetime (-44) 3 15 0 0 0 None) <= 1900)%Z)
    by (simpl; lia).
  split; [exact Hy|].
  exact (proj1 (C10_working_year_window Ref.cpython
                  (Datetime (-44) 3 15 0 0 0 None) "%Y" Hy)).
Defined.
(** ** Occurrences of a text and [_findall] *)

Section Occurrences.

Lemma startswith_spec (t p : text) :
  Py.startswith t p = true <-> exists post, t = p ++ post.
Proof.
  revert t; induction p as [|c p IH]; intros t; simpl.
  - split; [intros _; exists t; reflexivity | reflexivity].
  - destruct t as [|c' t].
    + split; [discriminate | intros [post H]; discriminate].
    + rewrite andb_true_iff, IH. split.
      * intros [Hc [post ->]]. apply Ascii.eqb_eq in Hc. subst.
        exists post; reflexivity.
      * intros [post [= -> ->]]. split; [apply Ascii.eqb_refl|].
        exists post; reflexivity.
Qed.

Lemma occurs_atb_spec (t substr : text) (j : nat) :
  occurs_atb t substr j = true <-> occurs_at t substr j.
Proof.
  unfold occurs_atb, occurs_at.
  rewrite andb_true_iff, Nat.leb_le, startswith_spec. split.
  - intros [Hj [post Hpost]]. exists (firstn j t), post. split.
    + rewrite <- Hpost. symmetry. apply firstn_skipn.
    + apply firstn_length_le. exact Hj.
  - intros (pre & post & -> & <-). split.
    + rewrite length_app. lia.
    + exists post. rewrite skipn_app, Nat.sub_diag, skipn_all. reflexivity.
Qed.

Lemma occurs_at_bound (t substr : text) (j : nat) :
  occurs_at t substr j -> (j + length substr <= length t)%nat.
Proof.
  intros (pre & post & -> & <-). rewrite !length_app. lia.
Qed.

(** [find_from] returns the first offset at which the text occurs. *)
Lemma find_from_Some (t substr : text) (pos j : nat) :
  Py.find_from t substr pos = Some j ->
  exists k, j = (pos + k)%nat /\ occurs_atb t substr k = true
            /\ forall k', (k' < k)%nat -> occurs_atb t substr k' = false.
Proof.
  revert pos; induction t as [|c t IH]; intros pos; cbn [Py.find_from].
  - destruct (Py.startswith [] substr) eqn:Hs; [|discriminate].
    intros [= <-]. exists 0%nat. repeat split; [lia | | lia].
    unfold occurs_atb. simpl. exact Hs.
  - destruct (Py.startswith (c :: t) substr) eqn:Hs.
    + intros [= <-]. exists 0%nat. repeat split; [lia | | lia].
      unfold occurs_atb. simpl skipn. rewrite Hs. reflexivity.
    + intros H. apply IH in H. destruct H as (k & -> & Hk & Hmin).
      exists (S k). repeat split; [lia | exact Hk |].
      intros [|k'] Hlt.
      * unfold occurs_atb. simpl skipn. rewrite Hs. apply andb_false_r.
      * apply (Hmin k'). lia.
Qed.

Lemma find_from_None (t substr : text) (pos : nat) :
  Py.find_from t substr pos = None ->
  forall k, occurs_atb t substr k = false.
Proof.
  revert pos; induction t as [|c t IH]; intros pos; cbn [Py.find_from].
  - destruct (Py.startswith [] substr) eqn:Hs; [discriminate|].
    intros _ [|k]; unfold occurs_atb; simpl; [exact Hs | reflexivity].
  - destruct (Py.startswith (c :: t) substr) eqn:Hs; [discriminate|].
    intros H [|k].
    + unfold occurs_atb. simpl skipn. rewrite Hs. apply andb_false_r.
    + exact (IH _ H k).
Qed.

Lemma occurs_atb_skipn (t substr : text) (i k : nat) :
  (i <= length t)%nat ->
  occurs_atb (skipn i t) substr k = occurs_atb t substr (i + k).
Proof.
  intros Hi. unfold occurs_atb.
  rewrite length_skipn, skipn_skipn, (Nat.add_comm k i). f_equal.
  destruct (Nat.leb_spec k (length t - i)), (Nat.leb_spec (i + k) (length t));
    try reflexivity; lia.
Qed.

Lemma occurs_atb_beyond (t substr : text) (j : nat) :
  (length t < j)%nat -> occurs_atb t substr j = false.
Proof.
  intros H. unfold occurs_atb.
  destruct (Nat.leb_spec j (length t)); [lia | reflexivity].
Qed.

(** [str.find]: the first occurrence at or after [start]. *)
Lemma find_Some (t substr : text) (start j : nat) :
  Py.find t substr start = Some j ->
  (start <= j)%nat /\ occurs_atb t substr j = true
  /\ forall k, (start <= k < j)%nat -> occurs_atb t substr k = false.
Proof.
  unfold Py.find. destruct (Nat.leb_spec start (length t)) as [Hle|Hgt];
    [|discriminate].
  intros H. apply find_from_Some in H. destruct H as (k & -> & Hk & Hmin).
  rewrite occurs_atb_skipn in Hk by assumption.
  repeat split; [lia | exact Hk |].
  intros k' Hk'. replace k' with (start + (k' - start))%nat by lia.
  rewrite <- occurs_atb_skipn by assumption. apply Hmin. lia.
Qed.

Lemma find_None (t substr : text) (start : nat) :
  Py.find t substr start = None ->
  forall k, (start <= k)%nat -> occurs_atb t substr k = false.
Proof.
  unfold Py.find. destruct (Nat.leb_spec start (length t)) as [Hle|Hgt].
  - intros H k Hk. replace k with (start + (k - start))%nat by lia.
    rewrite <- occurs_atb_skipn by assumption.
    exact (find_from_None _ _ _ H _).
  - intros _ k Hk. apply occurs_atb_beyond. lia.
Qed.

(** The loop of [_findall] appends every occurrence from [i] on. *)
Lemma _findall_loop_spec (t substr : text) (sites : list nat) (i : nat) :
  forall k, In k (_findall_loop t substr sites i) <->
            In k sites \/ ((i <= k)%nat /\ occurs_atb t substr k = true).
Proof.
  funelim (_findall_loop t substr sites i); intros k.
  - match goal with IH : forall _, _ <-> _ |- _ => rewrite IH end.
    match goal with Hf : Py.find _ _ _ = Some _ |- _ =>
      destruct (find_Some _ _ _ _ Hf) as (Hle & Hocc & Hmin) end.
    rewrite in_app_iff. simpl. split.
    + intros [[Hin | [<- | []]] | [Hk Hok]]; auto.
      right. split; [lia | exact Hok].
    + intros [Hin | [Hk Hok]]; auto.
      destruct (Nat.lt_trichotomy k j) as [Hlt | [-> | Hgt]].
      * rewrite Hmin in Hok by lia. discriminate.
      * auto.
      * right. split; [lia | exact Hok].
  - match goal with Hf : Py.find _ _ _ = None |- _ =>
      pose proof (find_None _ _ _ Hf) as Hnone end.
    split; [auto|]. intros [Hin | [Hk Hok]]; [exact Hin|].
    rewrite Hnone in Hok by assumption. discriminate.
Qed.

(** C4, first half: [_findall] lists exactly the offsets at which the text
    occurs, overlapping occurrences included. *)
Lemma _findall_spec (t substr : text) (j : nat) :
  In j (_findall t substr) <-> occurs_at t substr j.
Proof.
  unfold _findall. rewrite _findall_loop_spec, <- occurs_atb_spec. simpl.
  split; [intros [[] | [_ H]]; exact H | intros H; right; split; [lia | exact H]].
Qed.

(** The loop appends the offsets in increasing order, each one once. *)
Lemma _findall_loop_increasing (t substr : text) (sites : list nat) (i : nat) :
  exists found,
    _findall_loop t substr sites i = sites ++ found
    /\ StronglySorted lt found /\ Forall (le i) found.
Proof.
  funelim (_findall_loop t substr sites i).
  - match goal with IH : exists _, _ |- _ =>
      destruct IH as (found & Heq & Hsorted & Hfrom) end.
    match goal with Hf : Py.find _ _ _ = Some _ |- _ =>
      destruct (find_Some _ _ _ _ Hf) as (Hle & _ & _) end.
    exists (j :: found). split; [|split].
    + rewrite Heq, <- app_assoc. reflexivity.
    + constructor; [exact Hsorted|].
      eapply Forall_impl; [|exact Hfrom]. cbv beta. intros a Ha. lia.
    + constructor; [exact Hle|].
      eapply Forall_impl; [|exact Hfrom]. cbv beta. intros a Ha. lia.
  - exists []. split; [symmetry; apply app_nil_r|]. split; constructor.
Qed.

Lemma _findall_increasing (t substr : text) :
  StronglySorted lt (_findall t substr).
Proof.
  unfold _findall.
  destruct (_findall_loop_increasing t substr [] 0) as (found & -> & H & _).
  exact H.
Qed.

End Occurrences.
(** ** The safe offsets and the splice *)

Section Splice.

Lemma common_sites_filter (sites1 sites2 : list nat) :
  common_sites sites1 sites2
  = filter (fun site => existsb (Nat.eqb site) sites2) sites1.
Proof.
  unfold common_sites.
  enough (H : forall acc,
             fold_left (fun sites site =>
                          if existsb (Nat.eqb site) sites2 then sites ++ [site]
                          else sites) sites1 acc
             = acc ++ filter (fun site => existsb (Nat.eqb site) sites2) sites1)
    by exact (H []).
  induction sites1 as [|a l IH]; intros acc; simpl.
  - symmetry. apply app_nil_r.
  - rewrite IH. destruct (existsb (Nat.eqb a) sites2); [|reflexivity].
    rewrite <- app_assoc. reflexivity.
Qed.

(** The offsets kept are those present in both lists. *)
Lemma common_sites_spec (sites1 sites2 : list nat) (j : nat) :
  In j (common_sites sites1 sites2) <-> In j sites1 /\ In j sites2.
Proof.
  rewrite common_sites_filter, filter_In, existsb_exists.
  split; intros [H1 H2]; split; trivial.
  - destruct H2 as (x & Hx & Heq). apply Nat.eqb_eq in Heq. subst. exact Hx.
  - exists j. split; [exact H2 | apply Nat.eqb_refl].
Qed.

Variable syear : text.

Lemma splice_length (s : text) (site : nat) :
  (site + 4 <= length s)%nat ->
  (length (splice syear s site) + 4 = length s + length syear)%nat.
Proof.
  intros H. unfold splice, Py.upto, Py.from.
  rewrite !length_app, firstn_length_le, length_skipn by lia. lia.
Qed.

(** The characters before the window and after it stay where they are,
    and the window holds the year. *)
Lemma splice_parts (s : text) (site : nat) :
  (site + 4 <= length s)%nat ->
  firstn site (splice syear s site) = firstn site s
  /\ firstn (length syear) (skipn site (splice syear s site)) = syear
  /\ skipn (site + length syear) (splice syear s site) = skipn (site + 4) s.
Proof.
  intros H. unfold splice, Py.upto, Py.from.
  assert (Hlen : length (firstn site s) = site) by (apply firstn_length_le; lia).
  repeat split.
  - rewrite firstn_app, Hlen, Nat.sub_diag, firstn_O, app_nil_r.
    rewrite firstn_firstn, Nat.min_id. reflexivity.
  - rewrite skipn_app, Hlen, Nat.sub_diag. simpl skipn at 2.
    rewrite (skipn_all2 (firstn site s)) by lia. simpl.
    rewrite firstn_app, Nat.sub_diag, firstn_O, app_nil_r.
    apply firstn_all.
  - rewrite skipn_app, Hlen.
    rewrite (skipn_all2 (firstn site s)) by lia. simpl.
    replace (site + length syear - site)%nat with (length syear) by lia.
    rewrite skipn_app, Nat.sub_diag, skipn_all. reflexivity.
Qed.

Hypothesis four : length syear = 4%nat.

Lemma splice_same_length (s : text) (site : nat) :
  (site + 4 <= length s)%nat -> length (splice syear s site) = length s.
Proof. intros H. pose proof (splice_length s site H). lia. Qed.

Lemma splice_outside (s : text) (site p : nat) :
  (site + 4 <= length s)%nat -> (p < site \/ site + 4 <= p)%nat ->
  nth_error (splice syear s site) p = nth_error s p.
Proof.
  intros H Hp. unfold splice, Py.upto, Py.from.
  assert (Hf : length (firstn site s) = site) by (apply firstn_length_le; lia).
  destruct Hp as [Hp | Hp].
  - rewrite nth_error_app1 by lia. rewrite nth_error_firstn.
    destruct (Nat.ltb_spec p site); [reflexivity | lia].
  - rewrite nth_error_app2 by lia. rewrite nth_error_app2 by lia.
    rewrite nth_error_skipn. f_equal. lia.
Qed.


(** A character outside the window of every spliced offset is untouched. *)
Lemma splice_all_outside (sites : list nat) (s : text) (p : nat) :
  Forall (fun site => site + 4 <= length s)%nat sites ->
  (forall site, In site sites -> (p < site \/ site + 4 <= p)%nat) ->
  nth_error (splice_all syear sites s) p = nth_error s p.
Proof.
  unfold splice_all. revert s; induction sites as [|a l IH]; intros s Hs Hp.
  - reflexivity.
  - inversion Hs as [|? ? Ha Hl]; subst. simpl.
    rewrite IH.
    + apply splice_outside; [exact Ha | apply Hp; left; reflexivity].
    + rewrite splice_same_length by exact Ha. exact Hl.
    + intros site Hin. apply Hp. right. exact Hin.
Qed.

End Splice.
(** ** Decimal text *)

Section Decimal.
Local Open Scope Z_scope.

Lemma digits_length_le (fuel : nat) (n : Z) (acc : text) (k : nat) :
  0 <= n < 10 ^ Z.of_nat (S k) ->
  (length (Py.digits fuel n acc) <= S k + length acc)%nat.
Proof.
  revert n acc k; induction fuel as [|f IH]; intros n acc k Hn; simpl.
  - lia.
  - destruct (Z.eqb_spec (n / 10) 0) as [Hz | Hnz]; [simpl; lia|].
    destruct k as [|k].
    + exfalso. apply Hnz. apply Z.div_small. simpl in Hn. lia.
    + specialize (IH (n / 10) (Py.digit (n mod 10) :: acc) k).
      simpl length in IH. rewrite Nat.add_succ_r in IH. apply IH.
      rewrite (Nat2Z.inj_succ (S k)), Z.pow_succ_r in Hn by lia.
      split; [apply Z.div_pos; lia | apply Z.div_lt_upper_bound; lia].
Qed.

Lemma digits_four (f : nat) (n : Z) (acc : text) :
  1000 <= n <= 9999 ->
  length (Py.digits (S (S (S (S f)))) n acc) = (4 + length acc)%nat.
Proof.
  intros Hn. cbn [Py.digits].
  destruct (Z.eqb_spec (n / 10) 0) as [H1|H1];
    [exfalso; Z.div_mod_to_equations; lia|].
  destruct (Z.eqb_spec (n / 10 / 10) 0) as [H2|H2];
    [exfalso; Z.div_mod_to_equations; lia|].
  destruct (Z.eqb_spec (n / 10 / 10 / 10) 0) as [H3|H3];
    [exfalso; Z.div_mod_to_equations; lia|].
  destruct (Z.eqb_spec (n / 10 / 10 / 10 / 10) 0) as [H4|H4];
    [reflexivity | exfalso; Z.div_mod_to_equations; lia].
Qed.

(** A year of four digits is written with four characters. *)
Lemma str_four (n : Z) : 1000 <= n <= 9999 -> length (Py.str n) = 4%nat.
Proof.
  intros Hn. unfold Py.str.
  destruct (Z.ltb_spec n 0); [lia|].
  assert (Hlog : 9 <= Z.log2 n)
    by (change 9 with (Z.log2 512); apply Z.log2_le_mono; lia).
  destruct (Z.to_nat (Z.log2 n)) as [|[|[|f]]] eqn:Hf; try lia.
  rewrite digits_four by exact Hn. reflexivity.
Qed.

Lemma str_length_le_4 (n : Z) :
  -999 <= n <= 9999 -> (length (Py.str n) <= 4)%nat.
Proof.
  intros Hn. unfold Py.str. destruct (Z.ltb_spec n 0).
  - assert (Hr : 0 <= - n < 10 ^ Z.of_nat 3)
      by (change (10 ^ Z.of_nat 3) with 1000; lia).
    pose proof (digits_length_le (S (Z.to_nat (Z.log2 (- n)))) (- n) [] 2 Hr).
    cbn [length] in *. lia.
  - assert (Hr : 0 <= n < 10 ^ Z.of_nat 4)
      by (change (10 ^ Z.of_nat 4) with 10000; lia).
    pose proof (digits_length_le (S (Z.to_nat (Z.log2 n))) n [] 3 Hr).
    cbn [length] in *. lia.
Qed.

(** ["%4d"] fills the field with spaces on the left. *)
Lemma percent_4d_padding (n : Z) :
  Py.percent_4d n = repeat " "%char (4 - length (Py.str n)) ++ Py.str n.
Proof. reflexivity. Qed.

Lemma percent_4d_length (n : Z) :
  -999 <= n <= 9999 -> length (Py.percent_4d n) = 4%nat.
Proof.
  intros Hn. pose proof (str_length_le_4 n Hn).
  rewrite percent_4d_padding, length_app, repeat_length. lia.
Qed.

Lemma digit_value_digit (d : Z) : 0 <= d <= 9 -> digit_value (Py.digit d) = d.
Proof.
  intros Hd. unfold digit_value, Py.digit.
  rewrite nat_ascii_embedding by lia. lia.
Qed.

Lemma digits_value (fuel : nat) (n : Z) (acc : text) :
  0 <= n < 2 ^ Z.of_nat fuel ->
  exists ds,
    Py.digits fuel n acc = ds ++ acc
    /\ forall v, fold_left (fun v c => 10 * v + digit_value c) ds v
                 = v * 10 ^ Z.of_nat (length ds) + n.
Proof.
  revert n acc; induction fuel as [|f IH]; intros n acc Hn.
  - exists []. split; [reflexivity|]. intros v. simpl in *. lia.
  - cbn [Py.digits].
    assert (Hd : 0 <= n mod 10 <= 9) by (Z.div_mod_to_equations; lia).
    destruct (Z.eqb_spec (n / 10) 0) as [Hz|Hnz].
    + exists [Py.digit (n mod 10)]. split; [reflexivity|].
      intros v. cbn [fold_left length]. rewrite digit_value_digit by exact Hd.
      change (10 ^ Z.of_nat 1) with 10. Z.div_mod_to_equations. lia.
    + destruct (IH (n / 10) (Py.digit (n mod 10) :: acc)) as (ds & Heq & Hval).
      { rewrite Nat2Z.inj_succ, Z.pow_succ_r in Hn by lia.
        Z.div_mod_to_equations. lia. }
      exists (ds ++ [Py.digit (n mod 10)]). split.
      * rewrite Heq, <- app_assoc. reflexivity.
      * intros v. rewrite fold_left_app, Hval. cbn [fold_left].
        rewrite digit_value_digit by exact Hd.
        rewrite length_app, Nat2Z.inj_add. cbn [length].
        rewrite Z.pow_add_r by lia. change (10 ^ Z.of_nat 1) with 10.
        Z.div_mod_to_equations. lia.
Qed.

(** [str] writes a non-negative integer in decimal, and a negative one as
    a minus sign before the decimal text of its opposite. *)
Lemma str_decimal (n : Z) :
  (0 <= n -> decimal_value (Py.str n) = n)
  /\ (n < 0 -> Py.str n = "-"%char :: Py.str (- n)).
Proof.
  split; intros Hn; unfold Py.str.
  - destruct (Z.ltb_spec n 0); [lia|].
    destruct (digits_value (S (Z.to_nat (Z.log2 n))) n []) as (ds & Heq & Hval).
    { split; [lia|]. rewrite Nat2Z.inj_succ, Z2Nat.id by apply Z.log2_nonneg.
      destruct (Z.eq_dec n 0) as [->|Hnz]; [reflexivity|].
      apply Z.log2_spec. lia. }
    rewrite Heq, app_nil_r. unfold decimal_value. rewrite Hval. lia.
  - destruct (Z.ltb_spec n 0); [|lia].
    destruct (Z.ltb_spec (- n) 0); [lia | reflexivity].
Qed.

End Decimal.

(** ** Claims on the splice *)

Section SpliceClaims.
Local Open Scope Z_scope.

(** A safe offset leaves room for the four digits of the working year. *)
Lemma safe_sites_window (w : Z) (s1 s2 : text) :
  1000 <= w <= 9999 ->
  Forall (fun site => site + 4 <= length s1)%nat (safe_sites w s1 s2).
Proof.
  intros Hw. apply Forall_forall. intros site Hin.
  apply common_sites_spec in Hin. destruct Hin as [Hin _].
  apply _findall_spec, occurs_at_bound in Hin.
  rewrite str_four in Hin by exact Hw. exact Hin.
Qed.

Lemma safe_sites_spec (w : Z) (s1 s2 : text) (j : nat) :
  In j (safe_sites w s1 s2) <->
  occurs_at s1 (Py.str w) j /\ occurs_at s2 (Py.str (w + 28)) j.
Proof.
  unfold safe_sites. rewrite common_sites_spec, !_findall_spec. reflexivity.
Qed.


End SpliceClaims.

(** C4, on the code as it is: for a year up to 1900 no text is formatted,
    no offset is recorded and nothing is spliced: the run never returns a
    text, and with a pattern that passes the [%s] check it stops with
    [NameError] at the name [time] of line 125, before line 126. *)
Theorem C4_no_offsets_recorded (P : platform) (dt : datetime) (fmt : text) :
  (year dt <= 1900)%Z ->
  (forall out, result (strftime_before1900 P dt fmt) <> Return out)
  /\ (Re.search _illegal_s fmt = false ->
      strftime_before1900 P dt fmt
      = ([Call_datetime_timetuple dt], Raise (NameError "time"))).
Proof.
  intros Hy. split.
  - intros out. rewrite legacy_result by exact Hy. discriminate.
  - intros Hs. apply run_legacy; assumption.
Qed.
(** ** The [%s] check *)

Section IllegalS.

Lemma nonempty_app {A} (a b : list A) :
  nonempty (a ++ b) = nonempty a || nonempty b.
Proof. destruct a; reflexivity. Qed.

Local Arguments Ascii.eqb : simpl never.

Ltac ascii_cases :=
  repeat match goal with
         | |- context [Ascii.eqb ?a ?b] =>
             destruct (Ascii.eqb_spec a b); subst; cbn; try congruence
         end.

Lemma match_percent_percent (n : nat) (s : text) :
  Re.rx_match n percent_percent s =
    match s with
    | c :: d :: rest =>
        if Ascii.eqb "%" c && Ascii.eqb "%" d then [rest] else []
    | _ => []
    end.
Proof.
  destruct s as [|c [|d rest]]; cbn; ascii_cases; reflexivity.
Qed.

Lemma match_percent_s (n : nat) (s : text) :
  nonempty (Re.rx_match n percent_s s) =
    match s with
    | c :: d :: rest => Ascii.eqb "%" c && Ascii.eqb "s" d
    | _ => false
    end.
Proof.
  destruct s as [|c [|d rest]]; cbn; ascii_cases; reflexivity.
Qed.

(** The iteration of [(%%)*] followed by [%s]. *)
Lemma match_pairs_then_s (n fuel : nat) (s : text) :
  length s <= fuel ->
  nonempty (flat_map (Re.rx_match n percent_s)
              (Re.star_iter (Re.rx_match n percent_percent) fuel s))
  = pairs_then_s s.
Proof.
  revert s; induction fuel as [|f IH]; intros s Hlen.
  - destruct s; [reflexivity | simpl in Hlen; lia].
  - cbn [Re.star_iter]. rewrite flat_map_app, nonempty_app.
    cbn [flat_map]. rewrite app_nil_r, match_percent_s.
    rewrite match_percent_percent.
    destruct s as [|c [|d rest]]; try reflexivity.
    cbn [pairs_then_s].
    destruct (Ascii.eqb_spec "%" c) as [<-|Hc]; [|reflexivity].
    destruct (Ascii.eqb_spec "%" d) as [<-|Hd].
    + cbn [andb flat_map]. rewrite app_nil_r.
      destruct (Nat.ltb_spec (length rest)
                  (length ("%"%char :: "%"%char :: rest)))
        as [_|Hge]; [|simpl in Hge; lia].
      rewrite IH by (simpl in Hlen; lia).
      destruct (Ascii.eqb_spec "s" "%"); [discriminate|].
      cbn. apply orb_false_r.
    + cbn. rewrite orb_false_r. reflexivity.
Qed.

Lemma match_star_then_s (n : nat) (s : text) :
  nonempty (Re.rx_match n (Re.Cat (Re.Star percent_percent) percent_s) s)
  = pairs_then_s s.
Proof.
  change (Re.rx_match n (Re.Cat (Re.Star percent_percent) percent_s) s)
    with (flat_map (Re.rx_match n percent_s)
            (Re.star_iter (Re.rx_match n percent_percent) (length s) s)).
  apply match_pairs_then_s. lia.
Qed.

(** A match of [_illegal_s] at the front of a suffix. *)
Lemma match_illegal_s (n : nat) (s : text) :
  nonempty (Re.rx_match n _illegal_s s)
  = ((length s =? n)%nat && pairs_then_s s) || after_other s.
Proof.
  change (Re.rx_match n _illegal_s s)
    with (flat_map
            (Re.rx_match n (Re.Cat (Re.Star percent_percent) percent_s))
            ((if (length s =? n)%nat then [s] else [])
             ++ match s with
                | c' :: rest => if Ascii.eqb "%" c' then [] else [rest]
                | [] => []
                end)).
  rewrite flat_map_app, nonempty_app. f_equal.
  - destruct (length s =? n)%nat; [|reflexivity].
    cbn [flat_map]. rewrite app_nil_r. apply match_star_then_s.
  - destruct s as [|c r]; [reflexivity|]. unfold after_other.
    destruct (Ascii.eqb "%" c); [reflexivity|].
    cbn [flat_map negb andb]. rewrite app_nil_r.
    apply match_star_then_s.
Qed.

Lemma search_tails (n : nat) (s : text) :
  length s < n ->
  existsb (fun suffix => nonempty (Re.rx_match n _illegal_s suffix)) (Re.tails s)
  = existsb after_other (Re.tails s).
Proof.
  induction s as [|c s IH]; intros Hlen; cbn [Re.tails existsb];
    rewrite match_illegal_s.
  - destruct (Nat.eqb_spec (length (A:=ascii) []) n); [lia | reflexivity].
  - destruct (Nat.eqb_spec (length (c :: s)) n); [lia|].
    cbn [andb orb]. f_equal. apply IH. simpl in Hlen. lia.
Qed.

(** [_illegal_s.search]: the pattern starts with pairs [%%] and [%s], or
    holds them after a character other than [%]. *)
Lemma search_illegal_s (fmt : text) :
  Re.search _illegal_s fmt
  = pairs_then_s fmt || existsb after_other (Re.tails fmt).
Proof.
  unfold Re.search. fold (@nonempty text).
  change (fun suffix : text =>
            match Re.rx_match (length fmt) _illegal_s suffix with
            | [] => false
            | _ :: _ => true
            end)
    with (fun suffix => nonempty (Re.rx_match (length fmt) _illegal_s suffix)).
  destruct fmt as [|c r]; [reflexivity|].
  cbn [Re.tails existsb]. rewrite match_illegal_s, Nat.eqb_refl.
  rewrite search_tails by (simpl; lia).
  cbn [andb]. rewrite orb_assoc. reflexivity.
Qed.

(** Reading the pattern from the left finds the same thing. *)
Lemma has_unescaped_s_tails (n : nat) (fmt : text) :
  length fmt <= n ->
  has_unescaped_s fmt
  = pairs_then_s fmt || existsb after_other (Re.tails fmt).
Proof.
  revert fmt; induction n as [|n IH]; intros fmt Hlen.
  - destruct fmt; [reflexivity | simpl in Hlen; lia].
  - destruct fmt as [|c rest]; [reflexivity|].
    destruct (Ascii.eqb_spec "%" c) as [<-|Hc].
    + destruct rest as [|d rest'].
      * cbn [has_unescaped_s pairs_then_s Re.tails existsb after_other].
        rewrite Ascii.eqb_refl. reflexivity.
      * cbn [has_unescaped_s pairs_then_s Re.tails existsb after_other].
        rewrite Ascii.eqb_refl.
        destruct (Ascii.eqb_spec "s" d) as [<-|Hs]; [reflexivity|].
        rewrite IH by (simpl in Hlen; lia).
        destruct (Ascii.eqb "%" d); cbn [negb andb orb];
          destruct rest'; reflexivity.
    + cbn [has_unescaped_s Re.tails existsb after_other].
      rewrite (proj2 (Ascii.eqb_neq "%" c) Hc).
      rewrite IH by (simpl in Hlen; lia).
      assert (Hp : pairs_then_s (c :: rest) = false).
      { destruct rest; [reflexivity|]. cbn [pairs_then_s].
        rewrite (proj2 (Ascii.eqb_neq "%" c) Hc). reflexivity. }
      rewrite Hp. cbn [negb andb orb].
      destruct rest; reflexivity.
Qed.

(** The check of [strftime_before1900] refuses exactly the patterns with
    an unescaped [%s]. *)
Lemma search_illegal_s_spec (fmt : text) :
  Re.search _illegal_s fmt = has_unescaped_s fmt.
Proof.
  rewrite search_illegal_s. symmetry.
  apply (has_unescaped_s_tails (length fmt)). lia.
Qed.

Lemma pairs_then_s_intro (k : nat) (post : text) :
  pairs_then_s (repeat "%"%char (2 * k) ++ "%s" ++ post) = true.
Proof.
  induction k as [|k IH]; [reflexivity|].
  replace (2 * S k)%nat with (S (S (2 * k))) by lia.
  cbn [repeat app pairs_then_s]. rewrite IH. reflexivity.
Qed.

Lemma pairs_then_s_elim (n : nat) (s : text) :
  (length s <= n)%nat -> pairs_then_s s = true ->
  exists k post, s = repeat "%"%char (2 * k) ++ "%s" ++ post.
Proof.
  revert s; induction n as [|n IH]; intros s Hlen.
  - destruct s; [discriminate | simpl in Hlen; lia].
  - destruct s as [|c [|d rest]]; try discriminate.
    cbn [pairs_then_s].
    destruct (Ascii.eqb_spec "%" c) as [<-|]; [|discriminate].
    destruct (Ascii.eqb_spec "s" d) as [<-|].
    + intros _. exists 0%nat, rest. reflexivity.
    + destruct (Ascii.eqb_spec "%" d) as [<-|]; [|discriminate].
      cbn [orb andb]. intros H. apply IH in H; [|simpl in Hlen; lia].
      destruct H as (k & post & ->). exists (S k), post.
      replace (2 * S k)%nat with (S (S (2 * k))) by lia. reflexivity.
Qed.

Lemma existsb_tails (f : text -> bool) (s : text) :
  existsb f (Re.tails s) = true <->
  exists pre suffix, s = pre ++ suffix /\ f suffix = true.
Proof.
  induction s as [|c s IH]; cbn [Re.tails existsb].
  - rewrite orb_false_r. split.
    + intros H. exists [], []. split; [reflexivity | exact H].
    + intros (pre & suffix & Heq & H). symmetry in Heq.
      apply app_eq_nil in Heq. destruct Heq as [_ ->]. exact H.
  - rewrite orb_true_iff, IH. split.
    + intros [H | (pre & suffix & -> & H)].
      * exists [], (c :: s). split; [reflexivity | exact H].
      * exists (c :: pre), suffix. split; [reflexivity | exact H].
    + intros (pre & suffix & Heq & H). destruct pre as [|c' pre].
      * left. simpl in Heq. subst. exact H.
      * right. injection Heq as <- ->. exists pre, suffix.
        split; [reflexivity | exact H].
Qed.

(** Reading from the left agrees with the words of the claim. *)
Lemma has_unescaped_s_spec (fmt : text) :
  has_unescaped_s fmt = true <-> unescaped_percent_s fmt.
Proof.
  rewrite (has_unescaped_s_tails (length fmt)) by lia.
  rewrite orb_true_iff, existsb_tails. unfold unescaped_percent_s. split.
  - intros [H | (pre & [|c r] & -> & H)]; try discriminate.
    + apply (pairs_then_s_elim (length fmt)) in H; [|lia].
      destruct H as (k & post & ->). exists [], k, post. split; auto.
    + cbn [after_other] in H. apply andb_true_iff in H. destruct H as [Hc H].
      apply (pairs_then_s_elim (length r)) in H; [|lia].
      destruct H as (k & post & ->). exists (pre ++ [c]), k, post. split.
      * rewrite <- app_assoc. reflexivity.
      * right. exists pre, c. split; [reflexivity|].
        intros ->. rewrite Ascii.eqb_refl in Hc. discriminate.
  - intros (pre & k & post & -> & [-> | (pre' & c & -> & Hc)]).
    + left. apply pairs_then_s_intro.
    + right. exists pre', (c :: repeat "%"%char (2 * k) ++ "%s" ++ post).
      split; [rewrite <- app_assoc; reflexivity|].
      cbn [after_other]. rewrite pairs_then_s_intro, andb_true_r.
      apply negb_true_iff, Ascii.eqb_neq. congruence.
Qed.

End IllegalS.

(** ** Claims on the check and on the choice of the formatter *)

Section FormatterClaims.
Local Open Scope Z_scope.
Variable P : platform.

(** C6: [_illegal_s] finds a match exactly in the patterns with an
    unescaped [%s], that is a [%s] after an even run of [%]; such a pattern
    is refused with the [TypeError] for every date, also after 1900, before
    any call of the platform, so that no output is produced; every other
    pattern passes the check and the run goes on to the datetime object:
    to its [strftime] after 1900, to its [timetuple] up to 1900. *)
Theorem C6_unescaped_s_refused (dt : datetime) (fmt : text) :
  Re.search _illegal_s fmt = has_unescaped_s fmt
  /\ (has_unescaped_s fmt = true <-> unescaped_percent_s fmt)
  /\ if has_unescaped_s fmt
     then strftime_before1900 P dt fmt
          = ([], Raise (TypeError
                          "This strftime implementation does not handle %s"))
     else hd_error (trace (strftime_before1900 P dt fmt))
          = Some (if year dt >? 1900 then Call_datetime_strftime dt fmt
                  else Call_datetime_timetuple dt).
Proof.
  split; [apply search_illegal_s_spec|].
  split; [apply has_unescaped_s_spec|].
  destruct (has_unescaped_s fmt) eqn:Hs; rewrite <- search_illegal_s_spec in Hs.
  - apply run_illegal. exact Hs.
  - destruct (Z.gtb_spec (year dt) 1900) as [Hgt|Hle].
    + rewrite run_direct by (trivial; lia). reflexivity.
    + rewrite legacy_trace by exact Hle. rewrite Hs. reflexivity.
Qed.

Lemma trace_as_value (m : M text) : trace (as_value m) = trace m.
Proof.
  destruct m as [tr [s|e]]; unfold as_value, bind, ret, trace; simpl;
    [apply app_nil_r | reflexivity].
Qed.

Lemma from_python_datetime (self : DateTimeConverter) (dt : datetime)
      (state : pyval) :
  _from_python P self (PyDatetime dt) state =
    if year dt <=? 1900 then as_value (strftime_before1900 P dt (format self))
    else as_value (datetime_strftime P dt (format self)).
Proof. reflexivity. Qed.

(** A run of the legacy formatter on a year up to 1900 never calls
    [datetime.strftime]. *)
Lemma legacy_never_direct (dt : datetime) (fmt : text) :
  year dt <= 1900 ->
  forall dt' fmt', ~ In (Call_datetime_strftime dt' fmt')
                        (trace (strftime_before1900 P dt fmt)).
Proof.
  intros Hy dt' fmt'. rewrite legacy_trace by exact Hy.
  destruct (Re.search _illegal_s fmt); simpl; intuition discriminate.
Qed.

(** C5, as the code has it: [_from_python] hands a datetime with a year up
    to 1900 (1900 included) to [strftime_before1900], which then never calls
    [datetime.strftime], and formats a datetime with a later year (1901
    on) with [datetime.strftime] alone; [strftime_before1900] called with a
    year after 1900 and a pattern that passes the [%s] check makes that same
    single call and returns what it returns. *)
Theorem C5_formatter_by_year (self : DateTimeConverter) (dt : datetime)
        (state : pyval) (fmt : text) :
  (year dt <= 1900 ->
   _from_python P self (PyDatetime dt) state
   = as_value (strftime_before1900 P dt (format self))
   /\ forall dt' fmt',
       ~ In (Call_datetime_strftime dt' fmt')
            (trace (_from_python P self (PyDatetime dt) state)))
  /\ (year dt > 1900 ->
      _from_python P self (PyDatetime dt) state
      = as_value (datetime_strftime P dt (format self))
      /\ trace (_from_python P self (PyDatetime dt) state)
         = [Call_datetime_strftime dt (format self)])
  /\ (year dt > 1900 -> Re.search _illegal_s fmt = false ->
      strftime_before1900 P dt fmt = datetime_strftime P dt fmt
      /\ result (strftime_before1900 P dt fmt) = c_datetime_strftime P dt fmt).
Proof.
  rewrite from_python_datetime. repeat split.
  - destruct (Z.leb_spec (year dt) 1900); [reflexivity | lia].
  - destruct (Z.leb_spec (year dt) 1900); [|lia].
    rewrite trace_as_value. apply legacy_never_direct. assumption.
  - destruct (Z.leb_spec (year dt) 1900); [lia | reflexivity].
  - destruct (Z.leb_spec (year dt) 1900); [lia|].
    rewrite trace_as_value. reflexivity.
  - rewrite run_direct by assumption. reflexivity.
  - rewrite run_direct by assumption. reflexivity.
Qed.

End FormatterClaims.

(** ** Claims on the converter *)

Section ConverterClaims.
Variable self : DateTimeConverter.
Variable state : pyval.

(** [_to_python] stops at the first of the two names it meets: [date] for
    a true value (line 64), [time] for a false one (line 68); the
    [NameError] is no [ValueError], so line 70 is not reached. *)
Lemma to_python_raises (value : pyval) :
  _to_python self value state
  = ([], Raise (NameError (if truth value then "date" else "time"))).
Proof.
  unfold _to_python. destruct (truth value); reflexivity.
Qed.

Lemma date_or_datetime_true (value : pyval) :
  isinstance_date_or_datetime value = true -> truth value = true.
Proof. destruct value; try discriminate; reflexivity. Qed.

(** C7, with [render(None)] as the code has it: through the inherited
    [to_python], the empty text on a converter with [not_empty] fails with
    the message declared under ['empty'], before [_to_python] is reached;
    [_from_python] returns [None], not the empty text, for every false
    value, without a call of the platform and without an exception. *)
Theorem C7_empty_input (P : platform) :
  (not_empty self = true ->
   to_python self (PyStr []) state
   = ([], Raise (Invalid "Please Enter a Date." (PyStr []) state)))
  /\ (forall v, truth v = false ->
                _from_python P self v state = ([], Return PyNone)).
Proof.
  split.
  - intros Hne. unfold to_python. rewrite Hne. reflexivity.
  - intros v Hv. unfold _from_python. rewrite Hv. reflexivity.
Qed.

(** C8, on the code as it is: for every text that is not empty
    [_to_python] stops with [NameError] at the name [date] of line 64,
    before [time.strptime] is called: it neither fails with [Invalid] nor
    returns a datetime. *)
Theorem C8_parse_text_raises (s : text) :
  s <> [] ->
  _to_python self (PyStr s) state = ([], Raise (NameError "date")).
Proof.
  intros Hs. rewrite to_python_raises.
  destruct s; [contradiction | reflexivity].
Qed.

(** C9, on the code as it is: [_to_python] does not return a date or a
    datetime but stops with [NameError] at the name [date] of line 64;
    [_from_python] returns as it is every true value that is no datetime,
    without a call of the platform. *)
Theorem C9_pass_through_raises (P : platform) (value : pyval) :
  (isinstance_date_or_datetime value = true ->
   _to_python self value state = ([], Raise (NameError "date")))
  /\ (truth value = true -> isinstance_datetime value = false ->
      _from_python P self value state = ([], Return value)).
Proof.
  split.
  - intros H. rewrite to_python_raises, (date_or_datetime_true _ H).
    reflexivity.
  - intros Ht Hd. unfold _from_python. rewrite Ht.
    destruct value; try discriminate; reflexivity.
Qed.

End ConverterClaims.

(** ** The theorems at concrete inputs *)



Lemma C4_no_offsets_recorded_witness :
  strftime_before1900 Ref.cpython dt_1850 "%Y 1996"
  = ([Call_datetime_timetuple dt_1850], Raise (NameError "time")).
Proof.
  apply (C4_no_offsets_recorded Ref.cpython dt_1850 "%Y 1996");
    [simpl; lia | reflexivity].
Defined.

(** The claim C5 fails for the pattern ["%s"]: with the year 2000 the
    platform formats the date, as seconds since the epoch, and
    [strftime_before1900] raises. *)
Lemma C5_counterexample :
  (year dt_2000 > 1900)%Z
  /\ c_datetime_strftime Ref.cpython dt_2000 "%s" = Return ("946684800" : text)
  /\ result (strftime_before1900 Ref.cpython dt_2000 "%s")
     = Raise (TypeError "This strftime implementation does not handle %s").
Proof. split; [simpl; lia|]. split; vm_compute; reflexivity. Qed.

Lemma C5_formatter_by_year_witness :
  ((year dt_1900 <= 1900)%Z
   /\ _from_python Ref.cpython converter (PyDatetime dt_1900) PyNone
      = as_value (strftime_before1900 Ref.cpython dt_1900 default_format))
  /\ ((year dt_1901 > 1900)%Z
      /\ trace (_from_python Ref.cpython converter (PyDatetime dt_1901) PyNone)
         = [Call_datetime_strftime dt_1901 default_format])
  /\ (Re.search _illegal_s "%Y" = false
      /\ strftime_before1900 Ref.cpython dt_1901 "%Y"
         = datetime_strftime Ref.cpython dt_1901 "%Y").
Proof.
  assert (H0 : (year dt_1900 <= 1900)%Z) by (simpl; lia).
  assert (H1 : (year dt_1901 > 1900)%Z) by (simpl; lia).
  assert (Hs : Re.search _illegal_s "%Y" = false) by reflexivity.
  split; [split; [exact H0|]|split; [split; [exact H1|]|split; [exact Hs|]]].
  - exact (proj1 (proj1 (C5_formatter_by_year Ref.cpython converter dt_1900
                           PyNone "%Y") H0)).
  - exact (proj2 (proj1 (proj2 (C5_formatter_by_year Ref.cpython converter
                                  dt_1901 PyNone "%Y")) H1)).
  - exact (proj1 (proj2 (proj2 (C5_formatter_by_year Ref.cpython converter
                                  dt_1901 PyNone "%Y")) H1 Hs)).
Defined.

Example run_1900_1901 :
  _from_python Ref.cpython converter (PyDatetime dt_1900) PyNone
  = ([Call_datetime_timetuple dt_1900], Raise (NameError "time"))
  /\ _from_python Ref.cpython converter (PyDatetime dt_1901) PyNone
     = ([Call_datetime_strftime dt_1901 default_format],
        Return (PyStr "1901/01/01 00:00")).
Proof. split; vm_compute; reflexivity. Qed.

Example run_refused :
  has_unescaped_s "%d %s" = true
  /\ strftime_before1900 Ref.cpython dt_2000 "%d %s"
     = ([], Raise (TypeError "This strftime implementation does not handle %s"))
  /\ has_unescaped_s "100%%s" = false
  /\ strftime_before1900 Ref.cpython dt_2000 "100%%s"
     = ([Call_datetime_strftime dt_2000 "100%%s"], Return ("100%s" : text)).
Proof. repeat split; vm_compute; reflexivity. Qed.

(** The claim C7 fails for [None]: it is rendered as [None], which is not
    the empty text. *)
Lemma C7_counterexample :
  _from_python Ref.cpython converter PyNone PyNone = ([], Return PyNone)
  /\ PyNone <> PyStr "".
Proof. split; [reflexivity | discriminate]. Qed.

Lemma C7_empty_input_witness :
  to_python converter (PyStr []) PyNone
  = ([], Raise (Invalid "Please Enter a Date." (PyStr []) PyNone))
  /\ _from_python Ref.cpython converter (PyStr []) PyNone = ([], Return PyNone).
Proof.
  split.
  - apply (proj1 (C7_empty_input converter PyNone Ref.cpython)).
    reflexivity.
  - apply (proj2 (C7_empty_input converter PyNone Ref.cpython)). reflexivity.
Defined.

Lemma C8_parse_text_raises_witness :
  _to_python (Converter "%Y/%m/%d" None true) (PyStr "not-a-date") PyNone
  = ([], Raise (NameError "date")).
Proof.
  apply (C8_parse_text_raises (Converter "%Y/%m/%d" None true) PyNone
           "not-a-date").
  simpl. discriminate.
Defined.

Lemma C9_pass_through_raises_witness :
  _to_python converter (PyDatetime dt_1850) PyNone
  = ([], Raise (NameError "date"))
  /\ _from_python Ref.cpython converter (PyStr "1850/07/04") PyNone
     = ([], Return (PyStr "1850/07/04"))
  /\ _from_python Ref.cpython converter (PyDate 1850 7 4) PyNone
     = ([], Return (PyDate 1850 7 4)).
Proof.
  split; [|split].
  - apply (proj1 (C9_pass_through_raises converter PyNone Ref.cpython
                    (PyDatetime dt_1850))). reflexivity.
  - apply (proj2 (C9_pass_through_raises converter PyNone Ref.cpython
                    (PyStr "1850/07/04"))); reflexivity.
  - apply (proj2 (C9_pass_through_raises converter PyNone Ref.cpython
                    (PyDate 1850 7 4))); reflexivity.
Defined.

(** * Further properties *)

(** ** [_findall] *)

Section FindallMore.

Lemma filter_none {A} (f : A -> bool) (l : list A) :
  (forall x, In x l -> f x = false) -> filter f l = [].
Proof.
  induction l as [|a l IH]; intros H; [reflexivity|].
  simpl. rewrite (H a (or_introl eq_refl)). apply IH.
  intros x Hx. apply H. right. exact Hx.
Qed.

(** The loop appends the offsets from [i] on at which the text occurs, in
    the order of the offsets. *)
Lemma _findall_loop_filter (t substr : text) (sites : list nat) (i : nat) :
  _findall_loop t substr sites i
  = sites ++ filter (occurs_atb t substr) (seq i (S (length t) - i)).
Proof.
  funelim (_findall_loop t substr sites i).
  - match goal with
    | IH : _findall_loop _ _ _ _ = _ ++ filter _ _ |- _ => rewrite IH
    end.
    match goal with Hf : Py.find _ _ _ = Some _ |- _ =>
      destruct (find_Some _ _ _ _ Hf) as (Hle & Hocc & Hmin) end.
    assert (Hjt : j <= length t).
    { pose proof Hocc as Hb. unfold occurs_atb in Hb.
      apply andb_true_iff in Hb. apply Nat.leb_le. exact (proj1 Hb). }
    replace (S (length t) - i) with ((j - i) + S (length t - j)) by lia.
    rewrite seq_app, filter_app.
    rewrite (filter_none (occurs_atb t substr) (seq i (j - i))).
    + replace (i + (j - i)) with j by lia. cbn [seq filter app].
      rewrite Hocc, <- app_assoc. cbn [app].
      replace (S (length t) - (j + 1)) with (length t - j) by lia.
      replace (j + 1) with (S j) by lia. reflexivity.
    + intros x Hx. apply in_seq in Hx. apply Hmin. lia.
  - match goal with Hf : Py.find _ _ _ = None |- _ =>
      pose proof (find_None _ _ _ Hf) as Hnone end.
    rewrite filter_none; [symmetry; apply app_nil_r|].
    intros x Hx. apply in_seq in Hx. apply Hnone. lia.
Qed.

(** X1: [_findall] returns the offsets from 0 to the length of the text at
    which the text occurs, in increasing order and each once. *)
Theorem X1_findall_exact (t substr : text) :
  _findall t substr
  = filter (occurs_atb t substr) (seq 0 (S (length t)))
  /\ forall j, occurs_atb t substr j = true <-> occurs_at t substr j.
Proof.
  split; [|intros j; apply occurs_atb_spec].
  unfold _findall. rewrite _findall_loop_filter, Nat.sub_0_r. reflexivity.
Qed.

(** X2: the empty text occurs at every offset, the end of the text
    included. *)
Theorem X2_findall_empty (t : text) :
  _findall t [] = seq 0 (S (length t)).
Proof.
  unfold _findall. rewrite _findall_loop_filter, Nat.sub_0_r. cbn [app].
  apply forallb_filter_id. apply forallb_forall. intros j Hj.
  apply in_seq in Hj. unfold occurs_atb. cbn [Py.startswith].
  rewrite andb_true_r. apply Nat.leb_le. lia.
Qed.

(** X3: there are at most [len(text) - len(substr) + 1] offsets, and none
    when the text searched for is the longer one. *)
Theorem X3_findall_count (t substr : text) :
  length (_findall t substr) <= S (length t) - length substr
  /\ (length t < length substr -> _findall t substr = []).
Proof.
  assert (Hbeyond : forall j, S (length t) - length substr <= j ->
                              occurs_atb t substr j = false).
  { intros j Hj. destruct (occurs_atb t substr j) eqn:Ho; [|reflexivity].
    apply occurs_atb_spec, occurs_at_bound in Ho. lia. }
  unfold _findall. rewrite _findall_loop_filter, Nat.sub_0_r. cbn [app].
  split.
  - replace (S (length t))
      with ((S (length t) - length substr)
            + (S (length t) - (S (length t) - length substr))) by lia.
    rewrite seq_app, filter_app, length_app.
    rewrite (filter_none _ (seq _ (S (length t) - (S (length t) - length substr)))).
    + cbn [length]. rewrite Nat.add_0_r.
      etransitivity; [apply filter_length_le|]. rewrite length_seq. lia.
    + intros x Hx. apply in_seq in Hx. apply Hbeyond. lia.
  - intros Hlong. apply filter_none. intros x _. apply Hbeyond. lia.
Qed.

End FindallMore.

Lemma X3_findall_count_witness : _findall "1996" "1996-07-04" = [].
Proof. apply (X3_findall_count "1996" "1996-07-04"). simpl. lia. Defined.

(** ** The splice of [strftime_before1900] *)

Section SpliceMore.
Local Open Scope Z_scope.

Lemma str_injective (a b : Z) :
  0 <= a -> 0 <= b -> Py.str a = Py.str b -> a = b.
Proof.
  intros Ha Hb H.
  rewrite <- (proj1 (str_decimal a) Ha), <- (proj1 (str_decimal b) Hb), H.
  reflexivity.
Qed.

Lemma occurs_at_skipn (t u : text) (j : nat) :
  occurs_at t u j -> exists post, skipn j t = u ++ post.
Proof.
  intros (pre & post & -> & <-). exists post.
  rewrite skipn_app, skipn_all, Nat.sub_diag. reflexivity.
Qed.

(** Two texts of the same length that occur at one offset are equal. *)
Lemma occurs_at_same (t u v : text) (j : nat) :
  occurs_at t u j -> occurs_at t v j -> length u = length v -> u = v.
Proof.
  intros Hu Hv Hlen.
  destruct (occurs_at_skipn _ _ _ Hu) as [pu Hpu].
  destruct (occurs_at_skipn _ _ _ Hv) as [pv Hpv].
  rewrite Hpu in Hpv. apply (f_equal (firstn (length u))) in Hpv.
  rewrite firstn_app, firstn_all, Nat.sub_diag, firstn_O, app_nil_r in Hpv.
  rewrite Hlen in Hpv.
  rewrite firstn_app, firstn_all, Nat.sub_diag, firstn_O, app_nil_r in Hpv.
  exact Hpv.
Qed.

(** A text that occurs at two offsets less than its length apart meets
    itself. *)
Lemma occurs_at_overlap (t u : text) (j d : nat) :
  occurs_at t u j -> occurs_at t u (j + d) -> (d <= length u)%nat ->
  overlaps_itself u d = true.
Proof.
  intros H1 H2 Hd.
  destruct (occurs_at_skipn _ _ _ H1) as [p1 Hp1].
  destruct (occurs_at_skipn _ _ _ H2) as [p2 Hp2].
  rewrite Nat.add_comm, <- skipn_skipn, Hp1 in Hp2.
  rewrite skipn_app in Hp2.
  replace (d - length u)%nat with 0%nat in Hp2 by lia. cbn [skipn] in Hp2.
  apply (f_equal (firstn (length u - d))) in Hp2.
  rewrite firstn_app, length_skipn, Nat.sub_diag, firstn_O, app_nil_r in Hp2.
  rewrite firstn_all2 in Hp2 by (rewrite length_skipn; lia).
  rewrite firstn_app in Hp2.
  replace (length u - d - length u)%nat with 0%nat in Hp2 by lia.
  rewrite firstn_O, app_nil_r in Hp2.
  unfold overlaps_itself, text_eqb.
  destruct (list_eq_dec ascii_dec _ _); [reflexivity | contradiction].
Qed.

(** No working year and its second-pass year meet themselves at the same
    distance. *)
Lemma years_never_overlap (w : Z) (d : nat) :
  1972 < w <= 2000 -> (1 <= d <= 3)%nat ->
  overlaps_itself (Py.str w) d && overlaps_itself (Py.str (w + 28)) d = false.
Proof.
  intros Hw Hd.
  assert (Hall :
    forallb (fun k =>
               forallb (fun d =>
                          negb (overlaps_itself (Py.str (1973 + Z.of_nat k)) d
                                && overlaps_itself
                                     (Py.str (1973 + Z.of_nat k + 28)) d))
                       (seq 1 3))
            (seq 0 28) = true) by (vm_compute; reflexivity).
  rewrite forallb_forall in Hall.
  specialize (Hall (Z.to_nat (w - 1973))).
  rewrite forallb_forall in Hall.
  replace (1973 + Z.of_nat (Z.to_nat (w - 1973))) with w in Hall by lia.
  apply negb_true_iff. apply Hall; apply in_seq; lia.
Qed.

Lemma safe_sites_apart (y : Z) (s1 s2 : text) (j1 j2 : nat) :
  In j1 (safe_sites (working_year y) s1 s2) ->
  In j2 (safe_sites (working_year y) s1 s2) ->
  (j1 = j2 \/ j1 + 4 <= j2 \/ j2 + 4 <= j1)%nat.
Proof.
  pose proof (working_year_window y) as Hw.
  enough (Hlt : forall a b,
             In a (safe_sites (working_year y) s1 s2) ->
             In b (safe_sites (working_year y) s1 s2) ->
             (a < b)%nat -> (a + 4 <= b)%nat).
  { intros H1 H2. destruct (Nat.lt_trichotomy j1 j2) as [H|[H|H]].
    - right. left. apply Hlt; assumption.
    - left. exact H.
    - right. right. apply Hlt; assumption. }
  intros a b Ha Hb Hab.
  apply safe_sites_spec in Ha. apply safe_sites_spec in Hb.
  destruct Ha as [Ha1 Ha2]. destruct Hb as [Hb1 Hb2].
  destruct (Nat.le_gt_cases (a + 4) b) as [Hok|Hnear]; [exact Hok|].
  exfalso. replace b with (a + (b - a))%nat in Hb1, Hb2 by lia.
  pose proof (occurs_at_overlap _ _ _ _ Ha1 Hb1) as O1.
  pose proof (occurs_at_overlap _ _ _ _ Ha2 Hb2) as O2.
  rewrite str_four in O1 by lia. rewrite str_four in O2 by lia.
  pose proof (years_never_overlap (working_year y) (b - a) Hw) as Hno.
  rewrite O1, O2 in Hno by lia. discriminate Hno. lia.
Qed.

(** X4: on one and the same text for both passes, which is what a pattern
    that does not show the year gives, the intersect loop keeps no offset
    and the splice loop returns the text as it is, also where the text
    holds the digits of the working year. *)
Theorem X4_same_text_unchanged (y : Z) (s syear : text) :
  let w := working_year y in
  let sites :=
    common_sites (_findall s (Py.str w)) (_findall s (Py.str (w + 28))) in
  sites = [] /\ splice_all syear sites s = s.
Proof.
  intros w sites.
  pose proof (working_year_window y) as Hw. fold w in Hw.
  assert (Hnil : sites = []).
  { destruct sites as [|j l] eqn:E; [reflexivity|]. exfalso.
    assert (Hin : In j (safe_sites w s s))
      by (unfold safe_sites; fold sites; rewrite E; left; reflexivity).
    apply safe_sites_spec in Hin. destruct Hin as [Ha Hb].
    assert (Heq : Py.str w = Py.str (w + 28)).
    { apply (occurs_at_same s _ _ j Ha Hb). rewrite !str_four by lia.
      reflexivity. }
    apply str_injective in Heq; lia. }
  split; [exact Hnil|]. rewrite Hnil. reflexivity.
Qed.

(** X5: two offsets at which the year is spliced in are at least 4
    characters apart: the windows never overlap. *)
Theorem X5_safe_offsets_apart (y : Z) (s1 s2 : text) (j1 j2 : nat) :
  let w := working_year y in
  let sites :=
    common_sites (_findall s1 (Py.str w)) (_findall s2 (Py.str (w + 28))) in
  In j1 sites -> In j2 sites ->
  (j1 = j2 \/ j1 + 4 <= j2 \/ j2 + 4 <= j1)%nat.
Proof. intros w sites. apply safe_sites_apart. Qed.

End SpliceMore.

Section WindowMore.

Lemma window_ext (s s' : text) (a : nat) :
  (forall p, a <= p < a + 4 -> nth_error s' p = nth_error s p) ->
  firstn 4 (skipn a s') = firstn 4 (skipn a s).
Proof.
  intros H. apply nth_error_ext. intros n.
  rewrite !nth_error_firstn, !nth_error_skipn.
  destruct (Nat.ltb_spec n 4); [apply H; lia | reflexivity].
Qed.

Variable syear : text.

Lemma splice_all_length_gen (sites : list nat) (s : text) :
  4 <= length syear ->
  Forall (fun site => site + 4 <= length s) sites ->
  length (splice_all syear sites s)
  = length s + length sites * (length syear - 4).
Proof.
  intros Hsy. unfold splice_all.
  revert s; induction sites as [|a l IH]; intros s Hs.
  - simpl. lia.
  - apply Forall_cons_iff in Hs. destruct Hs as [Ha Hl].
    cbn [fold_left length].
    pose proof (splice_length syear s a Ha) as Hlen.
    rewrite IH.
    + rewrite Nat.mul_succ_l. lia.
    + eapply Forall_impl; [|exact Hl]. cbv beta. intros b Hb. lia.
Qed.

Hypothesis four : length syear = 4.

Lemma splice_window (s : text) (a : nat) :
  a + 4 <= length s -> firstn 4 (skipn a (splice syear s a)) = syear.
Proof.
  intros H. destruct (splice_parts syear s a H) as (_ & Hw & _).
  rewrite four in Hw. exact Hw.
Qed.

Lemma splice_keeps_window (s : text) (a b : nat) :
  firstn 4 (skipn a s) = syear -> b + 4 <= length s ->
  b = a \/ a + 4 <= b \/ b + 4 <= a ->
  firstn 4 (skipn a (splice syear s b)) = syear.
Proof.
  intros Hw Hb [-> | Hapart]; [apply splice_window; exact Hb|].
  rewrite <- Hw at 2. apply window_ext. intros p Hp.
  apply (splice_outside syear four); [exact Hb | lia].
Qed.

Lemma splice_all_keeps_window (sites : list nat) (s : text) (a : nat) :
  firstn 4 (skipn a s) = syear ->
  Forall (fun site => site + 4 <= length s) sites ->
  (forall b, In b sites -> b = a \/ a + 4 <= b \/ b + 4 <= a) ->
  firstn 4 (skipn a (splice_all syear sites s)) = syear.
Proof.
  unfold splice_all. revert s; induction sites as [|x l IH]; intros s Hw Hs Hp.
  - exact Hw.
  - apply Forall_cons_iff in Hs. destruct Hs as [Hx Hl].
    cbn [fold_left]. apply IH.
    + apply splice_keeps_window; [exact Hw | exact Hx |].
      apply Hp. left. reflexivity.
    + rewrite (splice_same_length syear four) by exact Hx. exact Hl.
    + intros b Hb. apply Hp. right. exact Hb.
Qed.

(** After all the splices, every spliced offset holds the year. *)
Lemma splice_all_window (sites : list nat) (s : text) :
  Forall (fun site => site + 4 <= length s) sites ->
  (forall a b, In a sites -> In b sites ->
               a = b \/ a + 4 <= b \/ b + 4 <= a) ->
  forall a, In a sites ->
            firstn 4 (skipn a (splice_all syear sites s)) = syear.
Proof.
  revert s; induction sites as [|x l IH]; intros s Hs Hp a Ha; [destruct Ha|].
  apply Forall_cons_iff in Hs. destruct Hs as [Hx Hl].
  assert (Hl' : Forall (fun site => site + 4 <= length (splice syear s x)) l)
    by (rewrite (splice_same_length syear four) by exact Hx; exact Hl).
  destruct (in_dec Nat.eq_dec a l) as [Hin | Hout].
  - change (splice_all syear (x :: l) s)
      with (splice_all syear l (splice syear s x)).
    apply IH; [exact Hl' | | exact Hin].
    intros u v Hu Hv. apply Hp; right; assumption.
  - destruct Ha as [<- | Ha]; [|contradiction].
    change (splice_all syear (x :: l) s)
      with (splice_all syear l (splice syear s x)).
    apply splice_all_keeps_window; [apply splice_window; exact Hx | exact Hl' |].
    intros b Hb.
    destruct (Hp b x (or_intror Hb) (or_introl eq_refl)) as [H|[H|H]]; auto.
Qed.

End WindowMore.

Section OutputMore.
Local Open Scope Z_scope.

Lemma percent_4d_at_least_4 (n : Z) : (4 <= length (Py.percent_4d n))%nat.
Proof.
  unfold Py.percent_4d, Py.rjust. rewrite length_app, repeat_length. lia.
Qed.

Lemma percent_4d_four_digits (n : Z) :
  1000 <= n <= 9999 -> Py.percent_4d n = Py.str n.
Proof.
  intros Hn. unfold Py.percent_4d, Py.rjust. rewrite str_four by exact Hn.
  reflexivity.
Qed.

(** X6: for a year from -999 to 9999, the text that lines 126-139 make of
    the two formatted texts holds the rendering of the true year at every
    offset at which the first text shows the working year and the second
    text its own year, and the characters of the first text everywhere
    outside these 4-character windows; from the year 1000 on the rendering
    is the plain decimal year. *)
Theorem X6_true_year_at_safe_offsets (y : Z) (s1 s2 : text) :
  -999 <= y <= 9999 ->
  let w := working_year y in
  let sites :=
    common_sites (_findall s1 (Py.str w)) (_findall s2 (Py.str (w + 28))) in
  let out := splice_all (Py.percent_4d y) sites s1 in
  (forall j, occurs_at s1 (Py.str w) j ->
             occurs_at s2 (Py.str (w + 28)) j ->
             firstn 4 (skipn j out) = Py.percent_4d y)
  /\ (forall p, (forall j, occurs_at s1 (Py.str w) j ->
                           occurs_at s2 (Py.str (w + 28)) j ->
                           (p < j \/ j + 4 <= p)%nat) ->
                nth_error out p = nth_error s1 p)
  /\ (1000 <= y -> Py.percent_4d y = Py.str y).
Proof.
  intros Hy w sites out.
  pose proof (working_year_window y) as Hw. fold w in Hw.
  assert (Hlen : length (Py.percent_4d y) = 4%nat)
    by (apply percent_4d_length; lia).
  assert (Hsites : Forall (fun site => site + 4 <= length s1)%nat sites)
    by (apply safe_sites_window; lia).
  split; [|split].
  - intros j Hj1 Hj2. apply splice_all_window.
    + exact Hlen.
    + exact Hsites.
    + intros a b. apply safe_sites_apart.
    + apply safe_sites_spec. split; assumption.
  - intros p Hp. apply splice_all_outside; [exact Hlen | exact Hsites |].
    intros site Hin. apply safe_sites_spec in Hin. destruct Hin as [H1 H2].
    apply Hp; assumption.
  - intros Hlo. apply percent_4d_four_digits. lia.
Qed.

(** X7: the splice loop changes the length of the text, per spliced
    offset, by the length of the rendered year less 4; the rendering never
    has fewer than 4 characters, so that the text grows for a year below
    -999 or above 9999 and keeps its length otherwise. *)
Theorem X7_output_length (y : Z) (s1 s2 : text) :
  let w := working_year y in
  let sites :=
    common_sites (_findall s1 (Py.str w)) (_findall s2 (Py.str (w + 28))) in
  (4 <= length (Py.percent_4d y))%nat
  /\ (length (splice_all (Py.percent_4d y) sites s1)
      = length s1 + length sites * (length (Py.percent_4d y) - 4))%nat.
Proof.
  intros w sites.
  pose proof (working_year_window y) as Hw. fold w in Hw.
  split; [apply percent_4d_at_least_4|].
  apply splice_all_length_gen; [apply percent_4d_at_least_4|].
  apply safe_sites_window. lia.
Qed.

End OutputMore.

Lemma X5_safe_offsets_apart_witness :
  (0 = 10 \/ 0 + 4 <= 10 \/ 10 + 4 <= 0)%nat.
Proof.
  apply (X5_safe_offsets_apart 1850 "1996 1996 1996" "2024 1996 2024");
    vm_compute; auto.
Defined.

Lemma X6_true_year_at_safe_offsets_witness :
  firstn 4 (skipn 6
              (splice_all (Py.percent_4d 1850)
                 (common_sites (_findall "04.07.1996" (Py.str 1996))
                    (_findall "04.07.2024" (Py.str 2024)))
                 "04.07.1996"))
  = ("1850" : text).
Proof.
  apply (proj1 (X6_true_year_at_safe_offsets 1850 "04.07.1996" "04.07.2024"
                  ltac:(lia)) 6%nat).
  - exists ("04.07." : text), ([] : text). split; reflexivity.
  - exists ("04.07." : text), ([] : text). split; reflexivity.
Defined.

Example run_splice_loops :
  splice_all (Py.percent_4d 1850)
    (common_sites (_findall "1996 1996" (Py.str 1996))
       (_findall "2024 1996" (Py.str 2024)))
    "1996 1996"
  = ("1850 1996" : text)
  /\ length (splice_all (Py.percent_4d (-1000))
               (common_sites (_findall "1994-07-04" (Py.str 1994))
                  (_findall "2022-07-04" (Py.str 2022)))
               "1994-07-04") = 11%nat.
Proof. split; vm_compute; reflexivity. Qed.

(** ** The [%s] check of [strftime_before1900] *)

Section CheckMore.

Lemma ends_without_percent (pre : text) :
  (forall pre', pre <> pre' ++ ["%"%char]) ->
  pre = [] \/ exists pre' c, pre = pre' ++ [c] /\ c <> "%"%char.
Proof.
  intros H. destruct pre as [|a l] using rev_ind; [left; reflexivity|].
  right. exists l, a. split; [reflexivity|]. intros ->. exact (H l eq_refl).
Qed.

(** X8: only a pattern that holds both a [%] and an [s] can be refused. *)
Theorem X8_check_needs_percent_and_s (fmt : text) :
  ~ In "%"%char fmt \/ ~ In "s"%char fmt ->
  Re.search _illegal_s fmt = false.
Proof.
  intros Hno. destruct (Re.search _illegal_s fmt) eqn:Hs; [|reflexivity].
  exfalso. rewrite search_illegal_s_spec in Hs.
  apply has_unescaped_s_spec in Hs.
  destruct Hs as (pre & k & post & -> & _).
  destruct Hno as [Hno | Hno]; apply Hno; rewrite !in_app_iff;
    right; right; left; simpl; auto.
Qed.

(** X9: a refused pattern stays refused when text is put after it, and
    when text that does not end in [%] is put before it. *)
Theorem X9_refused_stays_refused (fmt before after : text) :
  Re.search _illegal_s fmt = true ->
  (forall pre', before <> pre' ++ ["%"%char]) ->
  Re.search _illegal_s (before ++ fmt ++ after) = true.
Proof.
  intros Hs Hb. rewrite search_illegal_s_spec in *.
  apply has_unescaped_s_spec in Hs. apply has_unescaped_s_spec.
  destruct Hs as (pre & k & post & -> & Hpre).
  exists (before ++ pre), k, (post ++ after). split.
  - rewrite <- !app_assoc. reflexivity.
  - destruct Hpre as [-> | (pre' & c & -> & Hc)].
    + rewrite app_nil_r. apply ends_without_percent. exact Hb.
    + right. exists (before ++ pre'), c. split; [|exact Hc].
      rewrite <- app_assoc. reflexivity.
Qed.

End CheckMore.

Lemma X8_check_needs_percent_and_s_witness :
  Re.search _illegal_s "%m/%d/%Y" = false.
Proof.
  apply (X8_check_needs_percent_and_s "%m/%d/%Y"). right.
  simpl. intuition discriminate.
Defined.

Lemma X9_refused_stays_refused_witness :
  Re.search _illegal_s "%Y-%s seconds" = true.
Proof.
  apply (X9_refused_stays_refused "%s" "%Y-" " seconds"); [reflexivity|].
  intros pre' H. apply (f_equal (@rev ascii)) in H.
  rewrite rev_app_distr in H. simpl in H. discriminate H.
Defined.

Example run_prefix_percent :
  Re.search _illegal_s "%s" = true /\ Re.search _illegal_s "%%s" = false.
Proof. split; reflexivity. Qed.

(** ** The converter *)

Section ConverterMore.
Variable P : platform.
Variable self : DateTimeConverter.
Variable state : pyval.

(** X13: [_to_python] makes no call of the library; [_from_python] makes at
    most one, of the datetime object it is given: [strftime] for a year
    after 1900, and up to 1900 [timetuple] when the pattern passes the [%s]
    check and none when it does not; neither ever calls [time.strftime] or
    [time.strptime]. *)
Theorem X13_calls (value : pyval) :
  trace (_to_python self value state) = []
  /\ trace (_from_python P self value state)
     = match value with
       | PyDatetime dt =>
           if (year dt >? 1900)%Z then [Call_datetime_strftime dt (format self)]
           else if Re.search _illegal_s (format self) then []
                else [Call_datetime_timetuple dt]
       | _ => []
       end
  /\ Forall (fun c => is_time_call c = false)
       (trace (_from_python P self value state)).
Proof.
  split; [rewrite to_python_raises; reflexivity|].
  assert (Htr : trace (_from_python P self value state)
                = match value with
                  | PyDatetime dt =>
                      if (year dt >? 1900)%Z
                      then [Call_datetime_strftime dt (format self)]
                      else if Re.search _illegal_s (format self) then []
                           else [Call_datetime_timetuple dt]
                  | _ => []
                  end).
  { destruct value; try (unfold _from_python;
                         match goal with
                         | |- context [truth ?v] => destruct (truth v)
                         end; reflexivity).
    rewrite from_python_datetime.
    destruct (Z.leb_spec (year dt) 1900) as [Hle|Hgt];
      destruct (Z.gtb_spec (year dt) 1900) as [Hgt'|Hle']; try lia;
      rewrite trace_as_value.
    - apply legacy_trace. exact Hle.
    - reflexivity. }
  split; [exact Htr|]. rewrite Htr.
  destruct value; try constructor.
  destruct (year dt >? 1900)%Z;
    [|destruct (Re.search _illegal_s (format self))];
    repeat constructor.
Qed.

(** X17: [_from_python] never returns for a datetime with a year up to
    1900: it raises the [TypeError] of the [%s] check for a pattern with an
    unescaped [%s] and the [NameError] of the name [time] for any other. *)
Theorem X17_render_up_to_1900_raises (dt : datetime) :
  (year dt <= 1900)%Z ->
  result (_from_python P self (PyDatetime dt) state)
  = Raise (if has_unescaped_s (format self)
           then TypeError "This strftime implementation does not handle %s"
           else NameError "time").
Proof.
  intros Hy. rewrite from_python_datetime.
  destruct (Z.leb_spec (year dt) 1900); [|lia].
  rewrite <- search_illegal_s_spec.
  pose proof (legacy_result P dt (format self) Hy) as Hr.
  destruct (strftime_before1900 P dt (format self)) as [tr r].
  cbn [result snd] in Hr. subst r. reflexivity.
Qed.

(** X18: [_to_python] never returns and never fails with [Invalid]: for
    every argument it raises [NameError], at the name [date] for a true
    value and at the name [time] for a false one, so that the [ValueError]
    clause of line 69 is never entered. *)
Theorem X18_to_python_always_raises (value : pyval) :
  _to_python self value state
  = ([], Raise (NameError (if truth value then "date" else "time")))
  /\ (forall v, result (_to_python self value state) <> Return v)
  /\ (forall msg v st,
         result (_to_python self value state) <> Raise (Invalid msg v st)).
Proof.
  rewrite to_python_raises. split; [reflexivity|].
  split; intros; discriminate.
Qed.

End ConverterMore.

Lemma X17_render_up_to_1900_raises_witness :
  result (_from_python Ref.cpython converter (PyDatetime dt_1900) PyNone)
  = Raise (NameError "time").
Proof.
  apply (X17_render_up_to_1900_raises Ref.cpython converter PyNone dt_1900).
  simpl. lia.
Defined.

(** ** [CalendarDatePicker] *)

Section PickerMore.
Import CalendarDatePicker.

Lemma lower_char_idempotent (c : ascii) :
  Py.lower_char (Py.lower_char c) = Py.lower_char c.
Proof. destruct c as [[] [] [] [] [] [] [] []]; reflexivity. Qed.

Lemma lower_idempotent (s : text) : Py.lower (Py.lower s) = Py.lower s.
Proof.
  unfold Py.lower. rewrite map_map. apply map_ext.
  exact lower_char_idempotent.
Qed.

(** X15: the language file depends on the language up to the case of its
    letters only: two languages get the same link exactly when their lower
    case forms are equal, and a language gets the link of its lower case
    form. *)
Theorem X15_lang_link_ignores_case (lang1 lang2 : text) :
  (get_calendar_lang_file_link lang1 = get_calendar_lang_file_link lang2
   <-> Py.lower lang1 = Py.lower lang2)
  /\ get_calendar_lang_file_link (Py.lower lang1)
     = get_calendar_lang_file_link lang1.
Proof.
  unfold get_calendar_lang_file_link. cbv zeta. split; [split|].
  - intros H. injection H as H.
    apply app_inv_tail in H. exact H.
  - intros ->. reflexivity.
  - rewrite lower_idempotent. reflexivity.
Qed.

(** X16: a second call of [post_define] changes nothing; the class always
    has a validator afterwards; and its [default] is [None] afterwards
    exactly when it was [None] before on a class with [not_empty] false. *)
Theorem X16_post_define (cls : attributes) :
  post_define (post_define cls) = post_define cls
  /\ validator (post_define cls) <> NoValidator
  /\ (is_None (default (post_define cls)) = true <->
      is_None (default cls) = true /\ not_empty cls = false).
Proof.
  destruct cls as [d ne v f tz]. unfold post_define. cbn.
  split; [|split; [|split]].
  - destruct (is_None d) eqn:Hd, ne, v; cbn; rewrite ?Hd; reflexivity.
  - destruct v; discriminate.
  - destruct (is_None d) eqn:Hd, ne; cbn; rewrite ?Hd; auto; discriminate.
  - intros [Hd Hne]. rewrite Hd, Hne. cbn. exact Hd.
Qed.

End PickerMore.

Example run_post_define :
  CalendarDatePicker.post_define CalendarDatePicker_declared
  = CalendarDatePicker.Attributes CalendarDatePicker.DefaultNow true
      (CalendarDatePicker.ConverterValidator (Converter "%m/%d/%Y" None true))
      "%m/%d/%Y" None
  /\ CalendarDatePicker.validator
       (CalendarDatePicker.post_define CalendarDateTimePicker_inheriting)
     = CalendarDatePicker.ConverterValidator (Converter "%m/%d/%Y" None true).
Proof. split; reflexivity. Qed.
